(** * The n8n workflow testing script (n8n/test-workflows.py)

    A shallow embedding of the five webhook tests, of [main] and of the
    script's exit status, followed by the properties of the harness.

    The script talks to the outside world through [requests.post],
    [datetime.utcnow], [time.sleep] and [print].  Each test function wraps its
    request in [try: ... except Exception as e:].  The embedding therefore
    runs in a state-and-exception monad over a [World] that records what the
    script did (lines printed, requests sent, pauses taken, clock reads),
    while what the outside world answers is a parameter of the development. *)

From Stdlib Require Import ZArith List String Ascii Bool Lia DecimalString.
Import ListNotations.
Open Scope string_scope.
Open Scope Z_scope.

Set Warnings "-register-all".

(** ** Python values *)

(** The values the script builds as payloads, receives from
    [response.json()] and returns as the [Dict] half of a test's result.
    A [PDict] lists its items in insertion order; as in a Python dict its
    keys are pairwise distinct, and a lookup takes the first item of a key.
    A float is kept as its literal: the script never computes with one.
    A str is held as the bytes of its UTF-8 encoding. *)
Inductive pyval : Type :=
| PNone
| PBool (b : bool)
| PInt (n : Z)
| PFloat (literal : string)
| PStr (s : string)
| PList (items : list pyval)
| PDict (items : list (string * pyval)).

(** The exceptions of class [Exception] that can reach an [except Exception]
    clause of the script. *)
Inductive exn : Type :=
| KeyError (key : string)
| TypeError (msg : string)
| JSONDecodeError (msg : string)
| Timeout (msg : string)
| ConnectionError (msg : string)
| OtherException (class_name msg : string).

(** [str(e)].  A [KeyError] shows the repr of its key, which for the keys of
    this script is the key between single quotes. *)
Definition str_exn (e : exn) : string :=
  match e with
  | KeyError key => "'" ++ key ++ "'"
  | TypeError msg => msg
  | JSONDecodeError msg => msg
  | Timeout msg => msg
  | ConnectionError msg => msg
  | OtherException _ msg => msg
  end.

(** [str(n)] for a Python int. *)
Definition str_int (n : Z) : string := NilZero.string_of_int (Z.to_int n).

(** [s * n] for a one-piece string [s]. *)
Fixpoint str_repeat (s : string) (n : nat) : string :=
  match n with
  | O => EmptyString
  | S n' => s ++ str_repeat s n'
  end.

Definition type_name (v : pyval) : string :=
  match v with
  | PNone => "NoneType"
  | PBool _ => "bool"
  | PInt _ => "int"
  | PFloat _ => "float"
  | PStr _ => "str"
  | PList _ => "list"
  | PDict _ => "dict"
  end.

Fixpoint dict_get (key : string) (items : list (string * pyval)) : option pyval :=
  match items with
  | [] => None
  | (k, v) :: rest => if String.eqb k key then Some v else dict_get key rest
  end.

Definition dict_has (key : string) (items : list (string * pyval)) : bool :=
  match dict_get key items with
  | Some _ => true
  | None => false
  end.

Definition is_str (s : string) (v : pyval) : bool :=
  match v with
  | PStr s' => String.eqb s' s
  | _ => false
  end.

Definition substring_of (needle hay : string) : bool :=
  match String.index 0 needle hay with
  | Some _ => true
  | None => false
  end.

(** ** Requests, responses and the world *)

Record Request : Type := mkRequest {
  url : string;
  json_payload : pyval;
  timeout : Z
}.

(** A [requests.Response] as far as the script reads it: [status_code],
    [text], and what the method [json()] does, which is to return the parsed
    body or to raise when the body is not JSON. *)
Record Response : Type := mkResponse {
  status_code : Z;
  text : string;
  json : exn + pyval
}.

(** What one call of [requests.post] comes to: a response, or an exception
    (time-out, refused connection, DNS or TLS failure, ...). *)
Inductive Reply : Type :=
| Responds (r : Response)
| Fails (e : exn).

(** [datetime.utcnow()]. *)
Record datetime : Type := mkDatetime {
  year : Z;
  month : Z;
  day : Z;
  hour : Z;
  minute : Z;
  second : Z;
  microsecond : Z
}.

Record World : Type := mkWorld {
  stdout : list string;        (* one entry per call of print *)
  posts : list Request;        (* the calls of requests.post, oldest first *)
  sleeps : list Z;             (* the calls of time.sleep *)
  clock_reads : nat            (* the calls of datetime.utcnow so far *)
}.

Definition initial_world : World := mkWorld [] [] [] 0.

(** ** The monad of the script *)

Inductive Result (A : Type) : Type :=
| Ok (a : A)
| Raise (e : exn).
Arguments Ok {A} a.
Arguments Raise {A} e.

Definition M (A : Type) : Type := World -> Result A * World.

Definition ret {A} (a : A) : M A := fun w => (Ok a, w).

Definition bind {A B} (m : M A) (k : A -> M B) : M B :=
  fun w =>
    match m w with
    | (Ok a, w') => k a w'
    | (Raise e, w') => (Raise e, w')
    end.

Definition raise {A} (e : exn) : M A := fun w => (Raise e, w).

(** [try: body except Exception as e: handler]. *)
Definition try_except {A} (body : M A) (handler : exn -> M A) : M A :=
  fun w =>
    match body w with
    | (Ok a, w') => (Ok a, w')
    | (Raise e, w') => handler e w'
    end.

Declare Scope py_scope.
Delimit Scope py_scope with py.
Notation "x <- m ;; k" := (bind m (fun x => k))
  (at level 61, m at next level, right associativity) : py_scope.
Notation "' pat <- m ;; k" := (bind m (fun x => match x with pat => k end))
  (at level 61, pat pattern, m at next level, right associativity) : py_scope.
Notation "m ;; k" := (bind m (fun _ => k))
  (at level 61, right associativity) : py_scope.
Open Scope py_scope.

Definition print (line : string) : M unit :=
  fun w => (Ok tt, mkWorld (stdout w ++ [line]) (posts w) (sleeps w) (clock_reads w)).

Definition sleep (seconds : Z) : M unit :=
  fun w => (Ok tt, mkWorld (stdout w) (posts w) (sleeps w ++ [seconds]) (clock_reads w)).

Definition response_json (response : Response) : M pyval :=
  match json response with
  | inr v => ret v
  | inl e => raise e
  end.

(** [key in data], for a string [key]. *)
Definition py_contains (key : string) (data : pyval) : M bool :=
  match data with
  | PDict items => ret (dict_has key items)
  | PList items => ret (existsb (is_str key) items)
  | PStr s => ret (substring_of key s)
  | _ => raise (TypeError ("argument of type '" ++ type_name data ++ "' is not iterable"))
  end.

(** [data[key]], for a string [key]. *)
Definition py_getitem (data : pyval) (key : string) : M pyval :=
  match data with
  | PDict items =>
      match dict_get key items with
      | Some v => ret v
      | None => raise (KeyError key)
      end
  | PList _ => raise (TypeError "list indices must be integers or slices, not str")
  | PStr _ => raise (TypeError "string indices must be integers, not 'str'")
  | _ => raise (TypeError ("'" ++ type_name data ++ "' object is not subscriptable"))
  end.

(** The characters of a str: every byte of its UTF-8 encoding that is not
    a continuation byte ([10xxxxxx]) starts one. *)
Definition is_continuation (c : ascii) : bool :=
  ((128 <=? nat_of_ascii c) && (nat_of_ascii c <? 192))%nat.

Fixpoint code_points (s : string) : nat :=
  match s with
  | EmptyString => O
  | String c rest => ((if is_continuation c then 0 else 1) + code_points rest)%nat
  end.

(** [len(data)]. *)
Definition py_len (data : pyval) : M Z :=
  match data with
  | PDict items => ret (Z.of_nat (List.length items))
  | PList items => ret (Z.of_nat (List.length items))
  | PStr s => ret (Z.of_nat (code_points s))
  | _ => raise (TypeError ("object of type '" ++ type_name data ++ "' has no len()"))
  end.

(** ** Timestamps *)

Definition zfill (width : nat) (s : string) : string :=
  str_repeat "0" (width - String.length s) ++ s.

(** [datetime.isoformat()]: the fraction is left out when it is zero. *)
Definition isoformat (d : datetime) : string :=
  zfill 4 (str_int (year d)) ++ "-" ++ zfill 2 (str_int (month d)) ++ "-"
  ++ zfill 2 (str_int (day d)) ++ "T" ++ zfill 2 (str_int (hour d)) ++ ":"
  ++ zfill 2 (str_int (minute d)) ++ ":" ++ zfill 2 (str_int (second d))
  ++ (if microsecond d =? 0 then EmptyString
      else "." ++ zfill 6 (str_int (microsecond d))).

(** [datetime.utcnow().isoformat() + "Z"] for the instant [now]. *)
Definition timestamp (now : datetime) : string := isoformat now ++ "Z".

(** The instants a [datetime] can hold. *)
Definition valid_datetime (d : datetime) : Prop :=
  1 <= year d <= 9999 /\ 1 <= month d <= 12 /\ 1 <= day d <= 31
  /\ 0 <= hour d <= 23 /\ 0 <= minute d <= 59 /\ 0 <= second d <= 59
  /\ 0 <= microsecond d <= 999999.

Definition is_digit (c : ascii) : bool :=
  ((48 <=? nat_of_ascii c) && (nat_of_ascii c <=? 57))%nat.

Fixpoint all_digits (s : string) : bool :=
  match s with
  | EmptyString => true
  | String c rest => is_digit c && all_digits rest
  end.

(** [s] is made of exactly [width] digits. *)
Definition digits (width : nat) (s : string) : bool :=
  (String.length s =? width)%nat && all_digits s.

(** [P] holds of [count] integers in a row, from [start] on. *)
Fixpoint all_from (P : Z -> bool) (start : Z) (count : nat) : bool :=
  match count with
  | O => true
  | S count' => P start && all_from P (start + 1) count'
  end.

(** ** Looking into payloads and replies *)

(** The first value held under [key], at any depth of [v]. *)
Fixpoint find_key_deep (key : string) (v : pyval) : option pyval :=
  match v with
  | PDict items =>
      (fix in_items (l : list (string * pyval)) : option pyval :=
         match l with
         | [] => None
         | (k, x) :: rest =>
             if String.eqb k key then Some x
             else match find_key_deep key x with
                  | Some found => Some found
                  | None => in_items rest
                  end
         end) items
  | PList items =>
      (fix in_list (l : list pyval) : option pyval :=
         match l with
         | [] => None
         | x :: rest =>
             match find_key_deep key x with
             | Some found => Some found
             | None => in_list rest
             end
         end) items
  | _ => None
  end.

(** [v] with every item named [key] taken out, at any depth. *)
Fixpoint remove_key_deep (key : string) (v : pyval) : pyval :=
  match v with
  | PDict items =>
      PDict ((fix in_items (l : list (string * pyval)) : list (string * pyval) :=
                match l with
                | [] => []
                | (k, x) :: rest =>
                    if String.eqb k key then in_items rest
                    else (k, remove_key_deep key x) :: in_items rest
                end) items)
  | PList items => PList (map (remove_key_deep key) items)
  | _ => v
  end.

(** The value held under [key] at the top of an object. *)
Definition item (key : string) (v : pyval) : option pyval :=
  match v with
  | PDict items => dict_get key items
  | _ => None
  end.

(** How many items are named [key], at any depth of [v]. *)
Fixpoint count_key_deep (key : string) (v : pyval) : nat :=
  match v with
  | PDict items =>
      (fix in_items (l : list (string * pyval)) : nat :=
         match l with
         | [] => O
         | (k, x) :: rest =>
             ((if String.eqb k key then 1 else 0)
              + count_key_deep key x + in_items rest)%nat
         end) items
  | PList items =>
      (fix in_list (l : list pyval) : nat :=
         match l with
         | [] => O
         | x :: rest => (count_key_deep key x + in_list rest)%nat
         end) items
  | _ => O
  end.


Definition ends_with_Z (s : string) : Prop := exists front, s = front ++ "Z".

(** ** Sample worlds *)

Definition ok_empty : Response := mkResponse 200 "{}" (inr (PDict [])).

Definition ok_json (v : pyval) : Response := mkResponse 200 "<json>" (inr v).

Definition not_json : exn := JSONDecodeError "Expecting value: line 1 column 1 (char 0)".

Definition plain_text (status : Z) : Response := mkResponse status "Bad Gateway" (inl not_json).

Definition unprocessable : Response :=
  mkResponse 422 "Unprocessable Entity" (inl not_json).

(** 200 and [{}] for the first four requests, 422 for the fifth. *)
Definition net_healthy (n : nat) (_ : Request) : Reply :=
  if (n <? 4)%nat then Responds ok_empty else Responds unprocessable.

(** The same verdicts from other bodies: a status report, and a 400. *)
Definition net_healthy_verbose (n : nat) (_ : Request) : Reply :=
  if (n <? 4)%nat then Responds (ok_json (PDict [("status", PStr "ok")]))
  else Responds (plain_text 400).

Definition net_down (_ : nat) (_ : Request) : Reply :=
  Fails (Timeout "HTTPSConnectionPool(host='n8n.anikamaher.com', port=443): Read timed out.").

Definition net_text (status : Z) (_ : nat) (_ : Request) : Reply :=
  Responds (plain_text status).

Definition net_partial_scan (_ : nat) (_ : Request) : Reply :=
  Responds (ok_json (PDict [("mockScan", PDict [])])).

Definition clock_morning (_ : nat) : datetime := mkDatetime 2025 1 15 9 30 0 0.

Definition clock_evening (n : nat) : datetime :=
  mkDatetime 2025 1 15 21 45 (Z.of_nat n) 250000.

Definition dumps_flat (_ : pyval) : string := "<json>".

(** * The memory update script (update-memory.py)

    [update_memory] hands eight entities and four relations to the [mcp]
    command line tool, one [subprocess.run] each.  Its world records the
    lines printed, the commands run and the clock reads; what a command
    comes to is a parameter. *)

Module UpdateMemory.

(** A [subprocess.CompletedProcess] as far as the script reads it. *)
Record Completed : Type := mkCompleted {
  returncode : Z;
  stderr : string
}.

(** What one call of [subprocess.run] comes to: a finished process, or an
    exception (no such executable, undecodable output, ...). *)
Inductive Outcome : Type :=
| Returns (result : Completed)
| Throws (e : exn).

Record Shell : Type := mkShell {
  printed : list string;            (* one entry per call of print *)
  commands : list (list string);    (* the calls of subprocess.run, oldest first *)
  now_reads : nat                   (* the calls of datetime.now so far *)
}.

Definition fresh_shell : Shell := mkShell [] [] 0.

Definition Sh (A : Type) : Type := Shell -> Result A * Shell.

Definition ret {A} (a : A) : Sh A := fun sh => (Ok a, sh).

Definition bind {A B} (m : Sh A) (k : A -> Sh B) : Sh B :=
  fun sh =>
    match m sh with
    | (Ok a, sh') => k a sh'
    | (Raise e, sh') => (Raise e, sh')
    end.

Definition try_except {A} (body : Sh A) (handler : exn -> Sh A) : Sh A :=
  fun sh =>
    match body sh with
    | (Ok a, sh') => (Ok a, sh')
    | (Raise e, sh') => handler e sh'
    end.

Declare Scope sh_scope.
Delimit Scope sh_scope with sh.
Notation "x <- m ;; k" := (bind m (fun x => k))
  (at level 61, m at next level, right associativity) : sh_scope.
Notation "m ;; k" := (bind m (fun _ => k))
  (at level 61, right associativity) : sh_scope.
Local Open Scope sh_scope.

Definition print (line : string) : Sh unit :=
  fun sh => (Ok tt, mkShell (printed sh ++ [line]) (commands sh) (now_reads sh)).

(** [for x in l: body(x)]. *)
Fixpoint for_each {A} (body : A -> Sh unit) (l : list A) : Sh unit :=
  match l with
  | [] => ret tt
  | x :: rest => body x ;; for_each body rest
  end.

(** One item of [updates] and one of [relationships]. *)
Record Update : Type := mkUpdate {
  entity : string;
  type : string;
  content : string;
  date : string
}.

Record Relation : Type := mkRelation {
  from : string;
  to : string;
  relationType : string
}.

Definition relationships : list Relation :=
  [mkRelation "landing_page_fixes" "csp_middleware" "includes";
   mkRelation "landing_page_fixes" "hydration_fixes" "includes";
   mkRelation "landing_page_fixes" "font_loading" "includes";
   mkRelation "theme_system" "build_status" "results_in"].

(** The argument of [json.dumps] for an entity and for a relation. *)
Definition entity_json (u : Update) : pyval :=
  PDict [("entities",
          PList [PDict [("name", PStr (entity u));
                        ("entityType", PStr (type u));
                        ("observations", PList [PStr (content u)])]])].

Definition relation_json (rel : Relation) : pyval :=
  PDict [("relations",
          PList [PDict [("from", PStr (from rel));
                        ("to", PStr (to rel));
                        ("relationType", PStr (relationType rel))]])].

Section Script.

(** [run n cmd] is what the [n]-th call of [subprocess.run] (counted from
    0) comes to on the command [cmd]; [now_at n] is what the [n]-th call of
    [datetime.now()] returns; [dumps] is [json.dumps]. *)
Variable run : nat -> list string -> Outcome.
Variable now_at : nat -> datetime.
Variable dumps : pyval -> string.

Definition subprocess_run (cmd : list string) : Sh Completed :=
  fun sh =>
    let sh' := mkShell (printed sh) (commands sh ++ [cmd]) (now_reads sh) in
    match run (List.length (commands sh)) cmd with
    | Returns result => (Ok result, sh')
    | Throws e => (Raise e, sh')
    end.

Definition now : Sh datetime :=
  fun sh => (Ok (now_at (now_reads sh)),
             mkShell (printed sh) (commands sh) (S (now_reads sh))).

(** One dict of the [updates] list: its date is read when it is built. *)
Definition update (entity type content : string) : Sh Update :=
  d <- now ;;
  ret (mkUpdate entity type content (isoformat d)).

Definition entity_cmd (u : Update) : list string :=
  ["mcp"; "call-tool"; "memory-thub-v2"; "memory_create_entities";
   dumps (entity_json u)].

Definition relation_cmd (rel : Relation) : list string :=
  ["mcp"; "call-tool"; "memory-thub-v2"; "memory_create_relations";
   dumps (relation_json rel)].

(** Lines 66-87: the body of the first loop. *)
Definition create_entity (u : Update) : Sh unit :=
  let cmd := entity_cmd u in
  try_except
    (result <- subprocess_run cmd ;;
     if returncode result =? 0
     then print ("✅ Updated: " ++ entity u)
     else print ("❌ Failed to update " ++ entity u ++ ": " ++ stderr result))
    (fun e => print ("❌ Error updating " ++ entity u ++ ": " ++ str_exn e)).

(** Lines 114-131: the body of the second loop. *)
Definition create_relation (rel : Relation) : Sh unit :=
  let cmd := relation_cmd rel in
  try_except
    (result <- subprocess_run cmd ;;
     if returncode result =? 0
     then print ("✅ Created relation: " ++ from rel ++ " -> " ++ to rel)
     else print ("❌ Failed to create relation: " ++ stderr result))
    (fun e => print ("❌ Error creating relation: " ++ str_exn e)).

Definition update_memory : Sh unit :=
  u1 <- update "landing_page_fixes" "implementation"
      ("Fixed critical styling issues on landing page. Resolved CSP middleware "
       ++ "conflict, hydration mismatches, and @import order problems.") ;;
  u2 <- update "csp_middleware" "fix"
      ("Merged CSP functionality into root middleware.ts. Next.js only runs "
       ++ "one middleware file, so CSP in /src/middleware.ts was being ignored. "
       ++ "Now CSP headers are properly applied to all routes.") ;;
  u3 <- update "hydration_fixes" "fix"
      ("Fixed React hydration mismatches in BackgroundEffects component by "
       ++ "rendering canvas only on client. Added mounted state to ThemeProvider "
       ++ "to prevent server/client theme mismatch. Used CSS classes for "
       ++ "theme-specific overlays.") ;;
  u4 <- update "font_loading" "improvement"
      ("Replaced CSS @import with Next.js font loading system. Added Inter, "
       ++ "JetBrains_Mono, and Fira_Code fonts via next/font/google. Eliminates "
       ++ "@import order conflicts and improves performance.") ;;
  u5 <- update "tailwind_v4" "clarification"
      ("Project uses Tailwind CSS v4 with @config directive inside "
       ++ "tailwind.css. No separate tailwind.config.ts needed. Configuration is "
       ++ "handled via CSS custom properties.") ;;
  u6 <- update "theme_system" "implementation"
      ("Dual theme system working correctly. Professional theme with "
       ++ "glassmorphism effects and Synthwave theme with neon/terminal "
       ++ "aesthetics. Theme switching smooth without FOUC.") ;;
  u7 <- update "build_status" "status"
      ("TypeScript compilation: 0 errors. Build successful. Landing page loads "
       ++ "without console errors. Both themes render correctly. Mobile "
       ++ "performance optimized.") ;;
  u8 <- update "technical_decisions" "architecture"
      ("Using Next.js 14 App Router, TypeScript strict mode, Supabase for "
       ++ "backend, EODHD for market data. Middleware handles both CSP and "
       ++ "authentication. Theme handled via data-theme attribute on HTML.") ;;
  let updates := [u1; u2; u3; u4; u5; u6; u7; u8] in
  for_each create_entity updates ;;
  for_each create_relation relationships.

(** The [__main__] block, with the exit status of the interpreter: 0 when
    the block runs to its end, 1 when an exception leaves it. *)
Definition script (sh : Shell) : Z * Shell :=
  match (print "🔄 Updating THub V2 project memory..." ;;
         print (str_repeat "=" 50) ;;
         update_memory ;;
         print (str_repeat "=" 50) ;;
         print "✅ Memory update complete!") sh with
  | (Ok _, sh') => (0, sh')
  | (Raise _, sh') => (1, sh')
  end.

End Script.

(** The names of the entities, in the order of [updates]. *)
Definition entity_names : list string :=
  ["landing_page_fixes"; "csp_middleware"; "hydration_fixes"; "font_loading"; "tailwind_v4"; "theme_system"; "build_status"; "technical_decisions"].

(** Sample tools: one that always succeeds, one that is not installed, and
    one that rejects every second command. *)
Definition tool_ok (_ : nat) (_ : list string) : Outcome :=
  Returns (mkCompleted 0 EmptyString).

Definition tool_missing (_ : nat) (_ : list string) : Outcome :=
  Throws (OtherException "FileNotFoundError"
                         "[Errno 2] No such file or directory: 'mcp'").

Definition tool_flaky (n : nat) (_ : list string) : Outcome :=
  if Nat.even n then Returns (mkCompleted 0 EmptyString)
  else Returns (mkCompleted 1 "connection refused").

End UpdateMemory.

(** ** What the market scan display needs *)

(** The values [len] accepts among those [json()] returns. *)
Definition sized (v : pyval) : bool :=
  match v with
  | PList _ | PDict _ | PStr _ => true
  | _ => false
  end.

(** A [mockScan] value the four display lines can be printed from: an
    object with the three counts and with [candidates] that have a length. *)
Definition scan_displayable (scan : pyval) : bool :=
  match scan with
  | PDict fields =>
      dict_has "totalScanned" fields && dict_has "filtered" fields
      && dict_has "queued" fields
      && match dict_get "candidates" fields with
         | Some candidates => sized candidates
         | None => false
         end
  | _ => false
  end.

(** The JSON bodies on which lines 152-157 raise nothing. *)
Definition scan_passes (data : pyval) : bool :=
  match data with
  | PDict items =>
      match dict_get "mockScan" items with
      | None => true
      | Some scan => scan_displayable scan
      end
  | PList items => negb (existsb (is_str "mockScan") items)
  | PStr s => negb (substring_of "mockScan" s)
  | _ => false
  end.

(** A body that is JSON but neither an object, an array nor a string. *)
Definition scalar (data : pyval) : bool :=
  match data with
  | PNone | PBool _ | PInt _ | PFloat _ => true
  | _ => false
  end.

(** The three counts the display prints are, where [mockScan] has them,
    [null], booleans or numbers: values whose text every standard output
    can take. *)
Definition counts_scalar (data : pyval) : bool :=
  match item "mockScan" data with
  | Some (PDict fields) =>
      forallb (fun key => match dict_get key fields with
                          | Some v => scalar v
                          | None => true
                          end)
              ["totalScanned"; "filtered"; "queued"]
  | _ => true
  end.

Definition full_scan : pyval :=
  PDict [("success", PBool true);
         ("mockScan", PDict [("totalScanned", PInt 11000); ("filtered", PInt 30);
                             ("queued", PInt 10);
                             ("candidates", PList [PStr "AAPL"; PStr "NVDA"])])].

Definition net_full_scan (_ : nat) (_ : Request) : Reply := Responds (ok_json full_scan).

Definition net_null (_ : nat) (_ : Request) : Reply := Responds (ok_json PNone).

Definition net_server_error (_ : nat) (_ : Request) : Reply :=
  Responds (mkResponse 500 "Internal Server Error"
                       (inr (PDict [("message", PStr "Internal Server Error")]))).

(** ** Constants of the script *)

Module Colors.
Definition ESC : string := String (ascii_of_nat 27) EmptyString.
Definition GREEN : string := ESC ++ "[92m".
Definition RED : string := ESC ++ "[91m".
Definition YELLOW : string := ESC ++ "[93m".
Definition BLUE : string := ESC ++ "[94m".
Definition RESET : string := ESC ++ "[0m".
End Colors.

Definition newline : string := String (ascii_of_nat 10) EmptyString.

Definition N8N_BASE_URL : string := "https://n8n.anikamaher.com/webhook".

(** ** The tests *)

Section Harness.

(** The outside world.  [net n req] is what the [n]-th call of
    [requests.post] of the run (counted from 0) comes to when it sends
    [req]; [utcnow_at n] is the instant the [n]-th clock read returns.
    [dumps] is [json.dumps(_, indent=2)] and [format_value] the text an
    f-string gives a value; both are total on what [json()] returns.
    Every [print] is taken to succeed: a line that the standard output
    cannot encode (a str with a lone surrogate among the values of a
    response) is outside the model, and the statements that depend on the
    values printed say so in a hypothesis. *)
Variable net : nat -> Request -> Reply.
Variable utcnow_at : nat -> datetime.
Variable dumps : pyval -> string.
Variable format_value : pyval -> string.

Definition requests_post (url : string) (payload : pyval) (timeout : Z) : M Response :=
  fun w =>
    let req := mkRequest url payload timeout in
    let w' := mkWorld (stdout w) (posts w ++ [req]) (sleeps w) (clock_reads w) in
    match net (List.length (posts w)) req with
    | Responds r => (Ok r, w')
    | Fails e => (Raise e, w')
    end.

Definition utcnow : M datetime :=
  fun w => (Ok (utcnow_at (clock_reads w)),
            mkWorld (stdout w) (posts w) (sleeps w) (S (clock_reads w))).

Definition simple_payload (now : datetime) : pyval :=
  PDict [("test", PStr "simple");
         ("timestamp", PStr (timestamp now))].

Definition test_simple_webhook : M (bool * pyval) :=
  print (newline ++ Colors.BLUE ++ "Test 1: Simple Webhook Test" ++ Colors.RESET) ;;
  print ("Endpoint: " ++ N8N_BASE_URL ++ "/thub-test") ;;
  print (str_repeat "-" 40) ;;
  now <- utcnow ;;
  let payload := simple_payload now in
  try_except
    (response <- requests_post (N8N_BASE_URL ++ "/thub-test") payload 10 ;;
     if status_code response =? 200
     then
       print (Colors.GREEN ++ "✓ Success (200)" ++ Colors.RESET) ;;
       shown <- response_json response ;;
       print ("Response: " ++ dumps shown) ;;
       data <- response_json response ;;
       ret (true, data)
     else
       print (Colors.RED ++ "✗ Failed (" ++ str_int (status_code response) ++ ")"
              ++ Colors.RESET) ;;
       print ("Response: " ++ text response) ;;
       ret (false, PDict [("error", PStr (text response));
                          ("status", PInt (status_code response))]))
    (fun e =>
       print (Colors.RED ++ "✗ Error: " ++ str_exn e ++ Colors.RESET) ;;
       ret (false, PDict [("error", PStr (str_exn e))])).

Definition deploy_ready_payload (now : datetime) : pyval :=
  PDict [("action", PStr "test");
         ("source", PStr "python-test-script");
         ("timestamp", PStr (timestamp now))].

Definition test_deploy_ready_webhook : M (bool * pyval) :=
  print (newline ++ Colors.BLUE ++ "Test 2: Deploy-Ready Webhook Test" ++ Colors.RESET) ;;
  print ("Endpoint: " ++ N8N_BASE_URL ++ "/test-webhook") ;;
  print (str_repeat "-" 40) ;;
  now <- utcnow ;;
  let payload := deploy_ready_payload now in
  try_except
    (response <- requests_post (N8N_BASE_URL ++ "/test-webhook") payload 15 ;;
     if status_code response =? 200
     then
       print (Colors.GREEN ++ "✓ Success (200)" ++ Colors.RESET) ;;
       shown <- response_json response ;;
       print ("Response: " ++ dumps shown) ;;
       data <- response_json response ;;
       ret (true, data)
     else
       print (Colors.RED ++ "✗ Failed (" ++ str_int (status_code response) ++ ")"
              ++ Colors.RESET) ;;
       print ("Response: " ++ text response) ;;
       ret (false, PDict [("error", PStr (text response));
                          ("status", PInt (status_code response))]))
    (fun e =>
       print (Colors.RED ++ "✗ Error: " ++ str_exn e ++ Colors.RESET) ;;
       ret (false, PDict [("error", PStr (str_exn e))])).

Definition batch_symbols : list string :=
  ["AAPL"; "MSFT"; "GOOGL"; "TSLA"; "AMZN"; "META"; "NVDA"].

Definition batch_payload (now : datetime) : pyval :=
  PDict [("symbols", PList (map PStr batch_symbols));
         ("priority", PStr "normal");
         ("metadata", PDict [("source", PStr "python-test-script");
                             ("test", PBool true);
                             ("timestamp", PStr (timestamp now))])].

Definition test_batch_analysis : M (bool * pyval) :=
  print (newline ++ Colors.BLUE ++ "Test 3: Batch Analysis Webhook" ++ Colors.RESET) ;;
  print ("Endpoint: " ++ N8N_BASE_URL ++ "/batch-analysis-trigger") ;;
  print (str_repeat "-" 40) ;;
  now <- utcnow ;;
  let payload := batch_payload now in
  print ("Testing with " ++ str_int (Z.of_nat (List.length batch_symbols))
         ++ " symbols: " ++ String.concat ", " batch_symbols) ;;
  try_except
    (response <- requests_post (N8N_BASE_URL ++ "/batch-analysis-trigger") payload 20 ;;
     if status_code response =? 200
     then
       print (Colors.GREEN ++ "✓ Success (200)" ++ Colors.RESET) ;;
       shown <- response_json response ;;
       print ("Response: " ++ dumps shown) ;;
       data <- response_json response ;;
       ret (true, data)
     else
       print (Colors.RED ++ "✗ Failed (" ++ str_int (status_code response) ++ ")"
              ++ Colors.RESET) ;;
       print ("Response: " ++ text response) ;;
       ret (false, PDict [("error", PStr (text response));
                          ("status", PInt (status_code response))]))
    (fun e =>
       print (Colors.RED ++ "✗ Error: " ++ str_exn e ++ Colors.RESET) ;;
       ret (false, PDict [("error", PStr (str_exn e))])).

Definition market_scan_payload (now : datetime) : pyval :=
  PDict [("action", PStr "market_scan");
         ("filters", PDict [("limit", PInt 10);
                            ("minVolume", PInt 1000000);
                            ("minPrice", PInt 5);
                            ("maxPrice", PInt 500)]);
         ("timestamp", PStr (timestamp now))].

(** Lines 152-157: the display of the mock scan. *)
Definition show_mock_scan (data : pyval) : M unit :=
  present <- py_contains "mockScan" data ;;
  if present then
    print (newline ++ Colors.YELLOW ++ "Mock scan results:" ++ Colors.RESET) ;;
    scan <- py_getitem data "mockScan" ;;
    total <- py_getitem scan "totalScanned" ;;
    print ("  Total scanned: " ++ format_value total) ;;
    scan <- py_getitem data "mockScan" ;;
    filtered <- py_getitem scan "filtered" ;;
    print ("  Filtered: " ++ format_value filtered) ;;
    scan <- py_getitem data "mockScan" ;;
    queued <- py_getitem scan "queued" ;;
    print ("  Queued: " ++ format_value queued) ;;
    scan <- py_getitem data "mockScan" ;;
    candidates <- py_getitem scan "candidates" ;;
    count <- py_len candidates ;;
    print ("  Candidates: " ++ str_int count)
  else ret tt.

Definition test_market_scan_action : M (bool * pyval) :=
  print (newline ++ Colors.BLUE ++ "Test 4: Market Scan Action Test" ++ Colors.RESET) ;;
  print ("Endpoint: " ++ N8N_BASE_URL ++ "/thub-test (with market_scan action)") ;;
  print (str_repeat "-" 40) ;;
  now <- utcnow ;;
  let payload := market_scan_payload now in
  try_except
    (response <- requests_post (N8N_BASE_URL ++ "/thub-test") payload 10 ;;
     if status_code response =? 200
     then
       print (Colors.GREEN ++ "✓ Success (200)" ++ Colors.RESET) ;;
       data <- response_json response ;;
       print ("Response: " ++ dumps data) ;;
       show_mock_scan data ;;
       ret (true, data)
     else
       print (Colors.RED ++ "✗ Failed (" ++ str_int (status_code response) ++ ")"
              ++ Colors.RESET) ;;
       print ("Response: " ++ text response) ;;
       ret (false, PDict [("error", PStr (text response));
                          ("status", PInt (status_code response))]))
    (fun e =>
       print (Colors.RED ++ "✗ Error: " ++ str_exn e ++ Colors.RESET) ;;
       ret (false, PDict [("error", PStr (str_exn e))])).

Definition invalid_payload : pyval :=
  PDict [("symbols", PList []);
         ("priority", PStr "normal")].

Definition test_invalid_payload : M (bool * pyval) :=
  print (newline ++ Colors.BLUE ++ "Test 5: Error Handling Test" ++ Colors.RESET) ;;
  print "Testing batch analysis with invalid payload" ;;
  print (str_repeat "-" 40) ;;
  let payload := invalid_payload in
  try_except
    (response <- requests_post (N8N_BASE_URL ++ "/batch-analysis-trigger") payload 10 ;;
     if negb (status_code response =? 200)
     then
       print (Colors.GREEN ++ "✓ Correctly rejected invalid payload ("
              ++ str_int (status_code response) ++ ")" ++ Colors.RESET) ;;
       print ("Response: " ++ text response) ;;
       ret (true, PDict [("handled_correctly", PBool true)])
     else
       print (Colors.RED ++ "✗ Accepted invalid payload - should have failed" ++ Colors.RESET) ;;
       data <- response_json response ;;
       ret (false, data))
    (fun e =>
       print (Colors.RED ++ "✗ Error: " ++ str_exn e ++ Colors.RESET) ;;
       ret (false, PDict [("error", PStr (str_exn e))])).

(** ** main *)

Definition show_scheduled_workflows : M unit :=
  print (newline ++ Colors.YELLOW ++ str_repeat "=" 60) ;;
  print "Scheduled Workflows Information" ;;
  print (str_repeat "=" 60 ++ Colors.RESET) ;;
  print (newline ++ "1. Market Scanner (ID: fPC0yQPZZGK0nDyc)") ;;
  print "   - Schedule: Every 30 minutes during market hours (9:30 AM - 4:00 PM EST)" ;;
  print "   - Checks VIX for market volatility" ;;
  print "   - Applies adaptive filters based on conditions" ;;
  print "   - Can be manually triggered in n8n UI" ;;
  print (newline ++ "2. Signal Monitor (ID: Vsm1O5ROZxCTKIBh)") ;;
  print "   - Schedule: Every 15 minutes" ;;
  print "   - Monitors active signals with score >= 70" ;;
  print "   - Identifies signals needing refresh" ;;
  print "   - Can be manually triggered in n8n UI".

Definition tests : list (string * M (bool * pyval)) :=
  [("Simple Webhook", test_simple_webhook);
   ("Deploy-Ready Webhook", test_deploy_ready_webhook);
   ("Batch Analysis", test_batch_analysis);
   ("Market Scan Action", test_market_scan_action);
   ("Error Handling", test_invalid_payload)].

(** Lines 233-236: the loop over [tests], appending to [results]. *)
Fixpoint run_tests (tests : list (string * M (bool * pyval)))
         (results : list (string * bool)) : M (list (string * bool)) :=
  match tests with
  | [] => ret results
  | (test_name, test_func) :: rest =>
      '(success, data) <- test_func ;;
      let results := (results ++ [(test_name, success)])%list in
      sleep 1 ;;
      run_tests rest results
  end.

(** [sum(1 for _, success in results if success)] and its twin. *)
Definition sum_ones {A} (l : list A) : Z :=
  fold_left Z.add (map (fun _ => 1) l) 0.

Definition count_successful (results : list (string * bool)) : Z :=
  sum_ones (filter (fun r => snd r) results).

Definition count_failed (results : list (string * bool)) : Z :=
  sum_ones (filter (fun r => negb (snd r)) results).

Definition len {A} (l : list A) : Z := Z.of_nat (List.length l).

(** Lines 254-256: one line per result. *)
Fixpoint print_detailed (results : list (string * bool)) : M unit :=
  match results with
  | [] => ret tt
  | (test_name, success) :: rest =>
      let status := if (success : bool)
                    then Colors.GREEN ++ "✓" ++ Colors.RESET
                    else Colors.RED ++ "✗" ++ Colors.RESET in
      print (status ++ " " ++ test_name) ;;
      print_detailed rest
  end.

(** Lines 238-266: everything [main] does once [results] is complete. *)
Definition summarize (results : list (string * bool)) : M bool :=
  show_scheduled_workflows ;;
  print (newline ++ Colors.BLUE ++ str_repeat "=" 60) ;;
  print "Test Summary" ;;
  print (str_repeat "=" 60 ++ Colors.RESET) ;;
  let successful := count_successful results in
  let failed := count_failed results in
  print ("Total Tests: " ++ str_int (len results)) ;;
  print (Colors.GREEN ++ "Successful: " ++ str_int successful ++ Colors.RESET) ;;
  print (Colors.RED ++ "Failed: " ++ str_int failed ++ Colors.RESET) ;;
  print (newline ++ "Detailed Results:") ;;
  print_detailed results ;;
  print (newline ++ Colors.YELLOW ++ "Next Steps:" ++ Colors.RESET) ;;
  print "1. Check n8n execution history at https://n8n.anikamaher.com" ;;
  print "2. Verify scheduled workflows are active in n8n UI" ;;
  print "3. Monitor THub V2 application logs for webhook processing" ;;
  print "4. Test during market hours for realistic conditions" ;;
  print "5. Check Vercel logs at https://vercel.com/dashboard" ;;
  ret (successful =? len results).

Definition banner : M unit :=
  print (Colors.BLUE ++ str_repeat "=" 60) ;;
  print "THub V2 n8n Workflow Testing Suite" ;;
  print (str_repeat "=" 60 ++ Colors.RESET).

Definition main : M bool :=
  banner ;;
  results <- run_tests tests [] ;;
  summarize results.

(** The [__main__] block: [sys.exit(0 if success else 1)].  An exception
    that left [main] would end the interpreter with status 1. *)
Definition exit_status (w : World) : Z * World :=
  match main w with
  | (Ok success, w') => (if success then 0 else 1, w')
  | (Raise _, w') => (1, w')
  end.

(** ** The scenarios, by name

    The five entries of [tests], with the request each one sends and the
    reply the world gives it when the test starts in [w]. *)
Inductive Scenario : Type :=
| SimpleWebhook
| DeployReadyWebhook
| BatchAnalysis
| MarketScanAction
| ErrorHandling.

Definition scenarios : list Scenario :=
  [SimpleWebhook; DeployReadyWebhook; BatchAnalysis; MarketScanAction; ErrorHandling].

Definition scenario_name (s : Scenario) : string :=
  match s with
  | SimpleWebhook => "Simple Webhook"
  | DeployReadyWebhook => "Deploy-Ready Webhook"
  | BatchAnalysis => "Batch Analysis"
  | MarketScanAction => "Market Scan Action"
  | ErrorHandling => "Error Handling"
  end.

Definition scenario_func (s : Scenario) : M (bool * pyval) :=
  match s with
  | SimpleWebhook => test_simple_webhook
  | DeployReadyWebhook => test_deploy_ready_webhook
  | BatchAnalysis => test_batch_analysis
  | MarketScanAction => test_market_scan_action
  | ErrorHandling => test_invalid_payload
  end.

Definition scenario_request (s : Scenario) (now : datetime) : Request :=
  match s with
  | SimpleWebhook =>
      mkRequest (N8N_BASE_URL ++ "/thub-test") (simple_payload now) 10
  | DeployReadyWebhook =>
      mkRequest (N8N_BASE_URL ++ "/test-webhook") (deploy_ready_payload now) 15
  | BatchAnalysis =>
      mkRequest (N8N_BASE_URL ++ "/batch-analysis-trigger") (batch_payload now) 20
  | MarketScanAction =>
      mkRequest (N8N_BASE_URL ++ "/thub-test") (market_scan_payload now) 10
  | ErrorHandling =>
      mkRequest (N8N_BASE_URL ++ "/batch-analysis-trigger") invalid_payload 10
  end.

Definition scenario_reply (s : Scenario) (w : World) : Reply :=
  net (List.length (posts w)) (scenario_request s (utcnow_at (clock_reads w))).

(** The scenario whose test passes on a rejection. *)
Definition is_negative (s : Scenario) : bool :=
  match s with
  | ErrorHandling => true
  | _ => false
  end.

(** The scenario whose test goes through [show_mock_scan]. *)
Definition shows_mock_scan (s : Scenario) : bool :=
  match s with
  | MarketScanAction => true
  | _ => false
  end.

(** Whether [show_mock_scan] gets through [data]; it prints and does
    nothing else, so the world it starts in does not matter. *)
Definition mock_scan_failure (data : pyval) : option exn :=
  match fst (show_mock_scan data initial_world) with
  | Ok _ => None
  | Raise e => Some e
  end.

Definition passed (r : Result (bool * pyval) * World) : option bool :=
  match fst r with
  | Ok (success, _) => Some success
  | Raise _ => None
  end.

Definition detail (r : Result (bool * pyval) * World) : option pyval :=
  match fst r with
  | Ok (_, data) => Some data
  | Raise _ => None
  end.

Definition error_detail (e : exn) : pyval := PDict [("error", PStr (str_exn e))].

(** What a test hands back to [main], read off the branches of the test
    functions: used to organise the proofs, never to state a claim. *)
Definition outcome_of (s : Scenario) (reply : Reply) : bool * pyval :=
  match reply with
  | Fails e => (false, error_detail e)
  | Responds r =>
      if status_code r =? 200 then
        match json r with
        | inl e => (false, error_detail e)
        | inr data =>
            match s with
            | ErrorHandling => (false, data)
            | MarketScanAction =>
                match mock_scan_failure data with
                | None => (true, data)
                | Some e => (false, error_detail e)
                end
            | _ => (true, data)
            end
        end
      else if is_negative s
           then (true, PDict [("handled_correctly", PBool true)])
           else (false, PDict [("error", PStr (text r)); ("status", PInt (status_code r))])
  end.

(** The number of clock reads of a test: the negative one builds no
    timestamp. *)
Definition scenario_clock_reads (s : Scenario) : nat :=
  if is_negative s then 0%nat else 1%nat.

Definition entry (s : Scenario) : string * M (bool * pyval) :=
  (scenario_name s, scenario_func s).

(** The verdicts and the requests of a run of the scenarios [ss], when the
    world has already seen [n_posts] requests and [n_reads] clock reads. *)
Fixpoint verdicts (ss : list Scenario) (n_posts n_reads : nat) : list (string * bool) :=
  match ss with
  | [] => []
  | s :: rest =>
      (scenario_name s,
       fst (outcome_of s (net n_posts (scenario_request s (utcnow_at n_reads)))))
      :: verdicts rest (S n_posts) (scenario_clock_reads s + n_reads)
  end.

Fixpoint requests_of (ss : list Scenario) (n_reads : nat) : list Request :=
  match ss with
  | [] => []
  | s :: rest =>
      scenario_request s (utcnow_at n_reads)
      :: requests_of rest (scenario_clock_reads s + n_reads)
  end.

(** What the test functions of [tests] return, one after the other, when
    they are called in turn from [w] with the pause of the loop between
    them: the flag and the detail of each, up to the first that raises. *)
Fixpoint returned_by (tests : list (string * M (bool * pyval))) (w : World)
  : list (bool * pyval) :=
  match tests with
  | [] => []
  | (_, test_func) :: rest =>
      match test_func w with
      | (Ok returned, w') => returned :: returned_by rest (snd (sleep 1 w'))
      | (Raise _, _) => []
      end
  end.

(** The [results] list [main] holds when its loop is over. *)
Definition suite_results (w : World) : list (string * bool) :=
  match run_tests tests [] (snd (banner w)) with
  | (Ok results, _) => results
  | (Raise _, _) => []
  end.

(** The three lines of the tally, as [summarize] prints them. *)
Definition tally_lines (total successful failed : Z) : list string :=
  ["Total Tests: " ++ str_int total;
   Colors.GREEN ++ "Successful: " ++ str_int successful ++ Colors.RESET;
   Colors.RED ++ "Failed: " ++ str_int failed ++ Colors.RESET].

(** [w'] is [w] after some more lines were printed, and nothing else. *)
Definition prints_only (w w' : World) : Prop :=
  (exists lines, stdout w' = (stdout w ++ lines)%list)
  /\ posts w' = posts w /\ sleeps w' = sleeps w /\ clock_reads w' = clock_reads w.

(** The line of the detailed results for one result (lines 255-256). *)
Definition detailed_line (result : string * bool) : string :=
  (if snd result
   then Colors.GREEN ++ "✓" ++ Colors.RESET
   else Colors.RED ++ "✗" ++ Colors.RESET)
  ++ " " ++ fst result.

(** What is left of a request when its timestamp is taken out. *)
Definition static_part (req : Request) : string * pyval * Z :=
  (url req, remove_key_deep "timestamp" (json_payload req), timeout req).

(** ** Running the monad by hand *)

Ltac run :=
  cbv beta iota zeta delta
    [bind ret raise try_except print sleep utcnow requests_post
     response_json
     py_contains py_getitem py_len fst snd
     stdout posts sleeps clock_reads].

Ltac grown :=
  first [ exists []; now rewrite app_nil_r
        | eexists; repeat rewrite <- app_assoc; reflexivity ].

Lemma show_mock_scan_stateless (data : pyval) (w : World) :
  fst (show_mock_scan data w) = fst (show_mock_scan data initial_world).
Proof.
  unfold show_mock_scan.
  destruct data as [| b | n | f | s | items | items]; run; try reflexivity;
    match goal with
    | |- context [if ?c then _ else _] => destruct c; [| reflexivity]
    end;
    run; try reflexivity.
  destruct (dict_get "mockScan" items) as [scan |]; [| reflexivity].
  destruct scan as [| b | n | f | s | l | scan]; run; try reflexivity.
  destruct (dict_get "totalScanned" scan); [| reflexivity].
  destruct (dict_get "filtered" scan); [| reflexivity].
  destruct (dict_get "queued" scan); [| reflexivity].
  destruct (dict_get "candidates" scan) as [c |]; [| reflexivity].
  destruct c; reflexivity.
Qed.

Lemma show_mock_scan_prints_only (data : pyval) (w : World) :
  prints_only w (snd (show_mock_scan data w)).
Proof.
  destruct w as [out sent slept reads].
  unfold show_mock_scan, prints_only.
  destruct data as [| b | n | f | s | items | items]; run;
    try (split; [grown | auto]);
    match goal with
    | |- context [if ?c then _ else _] =>
        destruct c; [| run; split; [grown | auto]]
    end;
    run; try (split; [grown | auto]).
  destruct (dict_get "mockScan" items) as [scan |];
    [| run; split; [grown | auto]].
  destruct scan as [| b | n | f | s | l | scan]; run;
    try (split; [grown | auto]).
  destruct (dict_get "totalScanned" scan); [| run; split; [grown | auto]].
  destruct (dict_get "filtered" scan); [| run; split; [grown | auto]].
  destruct (dict_get "queued" scan); [| run; split; [grown | auto]].
  destruct (dict_get "candidates" scan) as [c |];
    [| run; split; [grown | auto]].
  destruct c; run; (split; [grown | auto]).
Qed.

Lemma show_mock_scan_result (data : pyval) (w : World) :
  fst (show_mock_scan data w)
  = match mock_scan_failure data with
    | None => Ok tt
    | Some e => Raise e
    end.
Proof.
  unfold mock_scan_failure.
  rewrite (show_mock_scan_stateless data w).
  destruct (fst (show_mock_scan data initial_world)) as [[] | e]; reflexivity.
Qed.

(** Every test ends normally, with the outcome its reply determines,
    after exactly one request and no pause. *)
Lemma scenario_func_run (s : Scenario) (w : World) :
  exists w',
    scenario_func s w = (Ok (outcome_of s (scenario_reply s w)), w')
    /\ (exists lines, stdout w' = (stdout w ++ lines)%list)
    /\ posts w' = (posts w ++ [scenario_request s (utcnow_at (clock_reads w))])%list
    /\ sleeps w' = sleeps w
    /\ clock_reads w' = (scenario_clock_reads s + clock_reads w)%nat.
Proof.
  destruct w as [out sent slept reads].
  destruct s; unfold scenario_reply, scenario_request, outcome_of;
    cbn [scenario_func is_negative scenario_clock_reads];
    unfold test_simple_webhook, test_deploy_ready_webhook, test_batch_analysis,
      test_market_scan_action, test_invalid_payload; run;
    match goal with
    | |- context [net ?n ?req] => destruct (net n req) as [r | e]
    end; run;
    try (eexists; split; [reflexivity | run; split; [grown | auto]]);
    (destruct (status_code r =? 200); run;
     [ destruct (json r) as [e | data]; run | ]);
    try (eexists; split; [reflexivity | run; split; [grown | auto]]).
  (* the market scan, whose display may raise after the 200 *)
  match goal with
  | |- context [show_mock_scan data ?w0] =>
      pose proof (show_mock_scan_result data w0) as Hres;
      pose proof (show_mock_scan_prints_only data w0) as ((lines & Hout) & Hp & Hs & Hc);
      destruct (show_mock_scan data w0) as [shown w1]
  end.
  destruct w1 as [out1 sent1 slept1 reads1].
  cbn [fst snd stdout posts sleeps clock_reads] in Hres, Hout, Hp, Hs, Hc.
  subst out1 sent1 slept1 reads1.
  destruct (mock_scan_failure data) as [e |]; subst shown; run;
    (eexists; split; [reflexivity | run; split; [grown | auto]]).
Qed.

Lemma tests_by_scenario : tests = map entry scenarios.
Proof. reflexivity. Qed.

(** The loop of [main], over any sub-list of the scenarios. *)
Lemma run_tests_run (ss : list Scenario) :
  forall (results : list (string * bool)) (w : World),
  exists w',
    run_tests (map entry ss) results w
    = (Ok (results ++ verdicts ss (List.length (posts w)) (clock_reads w))%list, w')
    /\ (exists lines, stdout w' = (stdout w ++ lines)%list)
    /\ posts w' = (posts w ++ requests_of ss (clock_reads w))%list
    /\ sleeps w' = (sleeps w ++ repeat 1 (List.length ss))%list.
Proof.
  induction ss as [| s ss IH]; intros results w.
  - exists w. cbn. unfold ret. rewrite !app_nil_r. split; [reflexivity |].
    split; [grown | auto].
  - destruct (scenario_func_run s w) as (w1 & Hrun & (lines1 & Hout) & Hp & Hs & Hc).
    cbn [map entry run_tests verdicts requests_of].
    unfold bind at 1. rewrite Hrun.
    destruct (outcome_of s (scenario_reply s w)) as [success data] eqn:Hout_of.
    unfold bind at 1, sleep at 1.
    match goal with
    | |- context [run_tests _ ?acc ?w2] =>
        destruct (IH acc w2) as (w' & Hrest & (lines & Hout') & Hp' & Hs')
    end.
    cbn [stdout posts sleeps clock_reads] in Hrest, Hout', Hp', Hs'.
    exists w'. rewrite Hrest, Hout', Hp', Hs', Hout, Hp, Hs, Hc.
    unfold scenario_reply in Hout_of. rewrite Hout_of.
    rewrite length_app, Nat.add_1_r. cbn [fst List.length repeat].
    rewrite <- !app_assoc. split; [reflexivity |]. split; [grown | auto].
Qed.

(** ** Counting *)

Lemma sum_ones_length {A} (l : list A) : sum_ones l = len l.
Proof.
  unfold sum_ones, len.
  assert (forall acc, fold_left Z.add (map (fun _ : A => 1) l) acc
                      = acc + Z.of_nat (List.length l)) as Hacc.
  { induction l as [| a l IH]; intros acc; cbn [map fold_left List.length].
    - lia.
    - rewrite IH. lia. }
  rewrite Hacc. lia.
Qed.

Lemma counts_partition (results : list (string * bool)) :
  count_successful results + count_failed results = len results.
Proof.
  unfold count_successful, count_failed. rewrite !sum_ones_length. unfold len.
  induction results as [| [name success] rest IH]; [reflexivity |].
  cbn [filter snd negb List.length]. destruct success; cbn [negb List.length]; lia.
Qed.

Lemma count_failed_nonneg (results : list (string * bool)) :
  0 <= count_failed results.
Proof. unfold count_failed. rewrite sum_ones_length. unfold len. lia. Qed.

Lemma count_failed_zero (results : list (string * bool)) :
  count_failed results = 0
  <-> forall name success, In (name, success) results -> success = true.
Proof.
  unfold count_failed. rewrite sum_ones_length. unfold len.
  induction results as [| [name success] rest IH]; cbn [filter snd List.length].
  - split; [intros _ ? ? [] | reflexivity].
  - destruct success; cbn [negb List.length].
    + rewrite IH. split.
      * intros H n b [Heq | Hin]; [congruence | eauto].
      * intros H n b Hin. apply (H n b). now right.
    + split; [lia |].
      intros H. specialize (H name false (or_introl eq_refl)). discriminate.
Qed.

Lemma all_successful_iff (results : list (string * bool)) :
  (count_successful results =? len results) = true
  <-> count_failed results = 0.
Proof.
  rewrite Z.eqb_eq. pose proof (counts_partition results). lia.
Qed.

(** ** The report *)

Lemma print_detailed_run (results : list (string * bool)) :
  forall w : World,
  exists lines,
    print_detailed results w
    = (Ok tt, mkWorld (stdout w ++ lines) (posts w) (sleeps w) (clock_reads w)).
Proof.
  induction results as [| [name success] rest IH]; intros [out sent slept reads].
  - exists []. cbn. unfold ret. now rewrite app_nil_r.
  - cbn [print_detailed]. run.
    match goal with
    | |- context [print_detailed rest ?w1] => destruct (IH w1) as (lines & Hrest)
    end.
    rewrite Hrest. cbn [stdout posts sleeps clock_reads].
    eexists. rewrite <- app_assoc. reflexivity.
Qed.

Lemma summarize_run (results : list (string * bool)) (w : World) :
  exists before after,
    summarize results w
    = (Ok (count_successful results =? len results),
       mkWorld (stdout w ++ before
                ++ tally_lines (len results) (count_successful results)
                               (count_failed results)
                ++ after)
               (posts w) (sleeps w) (clock_reads w)).
Proof.
  destruct w as [out sent slept reads].
  unfold summarize, show_scheduled_workflows, tally_lines. run.
  match goal with
  | |- context [print_detailed results ?w1] =>
      destruct (print_detailed_run results w1) as (lines & Hdetailed)
  end.
  rewrite Hdetailed. run.
  repeat rewrite <- app_assoc. cbn [app].
  refine (ex_intro _ (_ :: _ :: _ :: _ :: _ :: _ :: _ :: _ :: _ :: _ :: _ :: _
                        :: _ :: _ :: _ :: _ :: []) _).
  eexists. cbn [app]. reflexivity.
Qed.

Lemma banner_run (w : World) :
  exists lines,
    banner w = (Ok tt, mkWorld (stdout w ++ lines) (posts w) (sleeps w) (clock_reads w)).
Proof.
  destruct w as [out sent slept reads]. unfold banner. run.
  eexists. repeat rewrite <- app_assoc. reflexivity.
Qed.

Lemma verdicts_names (ss : list Scenario) :
  forall n_posts n_reads,
    map fst (verdicts ss n_posts n_reads) = map scenario_name ss.
Proof.
  induction ss as [| s ss IH]; intros n_posts n_reads; cbn [verdicts map fst].
  - reflexivity.
  - now rewrite IH.
Qed.

Lemma requests_of_length (ss : list Scenario) :
  forall n_reads, List.length (requests_of ss n_reads) = List.length ss.
Proof.
  induction ss as [| s ss IH]; intros n_reads; cbn [requests_of List.length].
  - reflexivity.
  - now rewrite IH.
Qed.

(** [main] from start to end. *)
Lemma main_run (w : World) :
  exists w1 w',
    run_tests tests [] (snd (banner w)) = (Ok (suite_results w), w1)
    /\ suite_results w = verdicts scenarios (List.length (posts w)) (clock_reads w)
    /\ main w = (Ok (count_successful (suite_results w) =? len (suite_results w)), w')
    /\ posts w' = (posts w ++ requests_of scenarios (clock_reads w))%list
    /\ sleeps w' = (sleeps w ++ repeat 1 (List.length scenarios))%list
    /\ exists before after,
         stdout w'
         = (stdout w ++ before
            ++ tally_lines (len (suite_results w))
                           (count_successful (suite_results w))
                           (count_failed (suite_results w))
            ++ after)%list.
Proof.
  destruct (banner_run w) as (lines & Hbanner).
  destruct (run_tests_run scenarios []
              (mkWorld (stdout w ++ lines) (posts w) (sleeps w) (clock_reads w)))
    as (w1 & Hloop & (lines1 & Hout) & Hp & Hs).
  cbn [stdout posts sleeps clock_reads app] in Hloop, Hout, Hp, Hs.
  rewrite <- tests_by_scenario in Hloop.
  assert (suite_results w = verdicts scenarios (List.length (posts w)) (clock_reads w))
    as Hresults.
  { unfold suite_results. rewrite Hbanner. cbn [snd]. now rewrite Hloop. }
  rewrite <- Hresults in Hloop.
  destruct (summarize_run (suite_results w) w1) as (before & after & Hsum).
  exists w1. eexists.
  split; [rewrite Hbanner; exact Hloop |].
  split; [exact Hresults |].
  split.
  { unfold main. unfold bind at 1. rewrite Hbanner.
    unfold bind at 1. rewrite Hloop. exact Hsum. }
  cbn [stdout posts sleeps].
  split; [exact Hp |]. split; [exact Hs |].
  exists (lines ++ lines1 ++ before)%list, after.
  rewrite Hout. repeat rewrite <- app_assoc. reflexivity.
Qed.

Lemma verdicts_length (ss : list Scenario) :
  forall n_posts n_reads,
    List.length (verdicts ss n_posts n_reads) = List.length ss.
Proof.
  intros n_posts n_reads.
  rewrite <- (length_map fst), verdicts_names. apply length_map.
Qed.

Lemma exit_status_of_main (w : World) (success : bool) (w' : World) :
  main w = (Ok success, w') ->
  exit_status w = (if success then 0 else 1, w').
Proof. intros Hmain. unfold exit_status. now rewrite Hmain. Qed.

(** ** The suite as a whole *)

(** C4: when [main] has run, the successful and the failed results add up
    to all the results, of which there is one per entry of [tests]; the
    script exits with 0 exactly when every result is a success, which is
    exactly when none failed, and with 1 otherwise. *)
Theorem suite_summary_and_exit_status (w : World) :
  exists w1 w',
    run_tests tests [] (snd (banner w)) = (Ok (suite_results w), w1)
    /\ main w = (Ok (count_successful (suite_results w) =? len (suite_results w)), w')
    /\ count_successful (suite_results w) + count_failed (suite_results w)
       = len (suite_results w)
    /\ len (suite_results w) = len tests
    /\ (fst (exit_status w) = 0
        <-> forall name success, In (name, success) (suite_results w) -> success = true)
    /\ (fst (exit_status w) = 0 <-> count_failed (suite_results w) = 0)
    /\ (fst (exit_status w) <> 0 -> fst (exit_status w) = 1).
Proof.
  destruct (main_run w) as (w1 & w' & Hloop & Hverdicts & Hmain & _).
  exists w1, w'.
  assert (fst (exit_status w) = 0 <-> count_failed (suite_results w) = 0) as Hexit.
  { rewrite (exit_status_of_main _ _ _ Hmain). cbn [fst].
    rewrite <- all_successful_iff.
    destruct (count_successful (suite_results w) =? len (suite_results w));
      split; congruence. }
  repeat split; try assumption.
  - apply counts_partition.
  - unfold len. rewrite Hverdicts, verdicts_length. reflexivity.
  - intros H0. now apply count_failed_zero, Hexit.
  - intros Hall. now apply Hexit, count_failed_zero.
  - apply Hexit.
  - apply Hexit.
  - rewrite (exit_status_of_main _ _ _ Hmain). cbn [fst].
    destruct (count_successful (suite_results w) =? len (suite_results w)); congruence.
Qed.

(** C5: whatever the endpoints do, every test function returns a result
    and raises nothing, the loop of [main] yields exactly one result per
    entry of [tests], in the order of [tests], and [main] itself returns. *)
Theorem one_result_per_scenario (w : World) :
  (forall s w0, exists result w1, scenario_func s w0 = (Ok result, w1))
  /\ (exists results w',
        run_tests tests [] w = (Ok results, w')
        /\ map fst results = map fst tests
        /\ List.length results = List.length tests)
  /\ (exists success w', main w = (Ok success, w'))
  /\ map fst (suite_results w) = map fst tests.
Proof.
  split; [| split; [| split]].
  - intros s w0. destruct (scenario_func_run s w0) as (w1 & Hrun & _). eauto.
  - rewrite tests_by_scenario.
    destruct (run_tests_run scenarios [] w) as (w' & Hloop & _).
    eexists. exists w'. split; [exact Hloop |].
    cbn [app]. rewrite verdicts_names, verdicts_length, length_map. split; reflexivity.
  - destruct (main_run w) as (w1 & w' & _ & _ & Hmain & _). eauto.
  - destruct (main_run w) as (w1 & w' & _ & Hverdicts & _).
    rewrite Hverdicts, verdicts_names. reflexivity.
Qed.

(** ** One scenario at a time *)

Lemma scenario_func_outcome (s : Scenario) (w : World) :
  fst (scenario_func s w) = Ok (outcome_of s (scenario_reply s w)).
Proof.
  destruct (scenario_func_run s w) as (w' & Hrun & _). now rewrite Hrun.
Qed.

Lemma passed_outcome (s : Scenario) (w : World) :
  passed (scenario_func s w) = Some (fst (outcome_of s (scenario_reply s w))).
Proof.
  unfold passed. rewrite scenario_func_outcome.
  now destruct (outcome_of s (scenario_reply s w)).
Qed.

Lemma detail_outcome (s : Scenario) (w : World) :
  detail (scenario_func s w) = Some (snd (outcome_of s (scenario_reply s w))).
Proof.
  unfold detail. rewrite scenario_func_outcome.
  now destruct (outcome_of s (scenario_reply s w)).
Qed.



Lemma mock_scan_failure_missing_total (items scan : list (string * pyval)) :
  dict_get "mockScan" items = Some (PDict scan) ->
  dict_get "totalScanned" scan = None ->
  mock_scan_failure (PDict items) = Some (KeyError "totalScanned").
Proof.
  intros Hscan Htotal. unfold mock_scan_failure, show_mock_scan, initial_world. run.
  unfold dict_has. rewrite Hscan. run. rewrite Htotal. reflexivity.
Qed.

Lemma mock_scan_failure_absent (items : list (string * pyval)) :
  dict_get "mockScan" items = None ->
  mock_scan_failure (PDict items) = None.
Proof.
  intros Hscan. unfold mock_scan_failure, show_mock_scan, initial_world. run.
  unfold dict_has. rewrite Hscan. reflexivity.
Qed.

(** C3, where the code departs from it: a 200 response to the market scan
    whose [mockScan] object has no [totalScanned] makes the display raise
    [KeyError] inside the [try], and the test is reported failed. *)
Theorem market_scan_missing_subfield
        (w : World) (r : Response) (items scan : list (string * pyval)) :
  scenario_reply MarketScanAction w = Responds r ->
  status_code r = 200 ->
  json r = inr (PDict items) ->
  dict_get "mockScan" items = Some (PDict scan) ->
  dict_get "totalScanned" scan = None ->
  fst (test_market_scan_action w)
  = Ok (false, PDict [("error", PStr "'totalScanned'")]).
Proof.
  intros Hreply H200 Hjson Hscan Htotal.
  change test_market_scan_action with (scenario_func MarketScanAction).
  rewrite scenario_func_outcome, Hreply. unfold outcome_of.
  rewrite H200, Hjson, (mock_scan_failure_missing_total _ _ Hscan Htotal).
  reflexivity.
Qed.

(** The market scan does pass on a 200 whose JSON object has no
    [mockScan] at all. *)
Lemma market_scan_without_mock_scan
      (w : World) (r : Response) (items : list (string * pyval)) :
  scenario_reply MarketScanAction w = Responds r ->
  status_code r = 200 ->
  json r = inr (PDict items) ->
  dict_get "mockScan" items = None ->
  fst (test_market_scan_action w) = Ok (true, PDict items).
Proof.
  intros Hreply H200 Hjson Hscan.
  change test_market_scan_action with (scenario_func MarketScanAction).
  rewrite scenario_func_outcome, Hreply. unfold outcome_of.
  rewrite H200, Hjson, (mock_scan_failure_absent _ Hscan). reflexivity.
Qed.

(** C6: when the request of a test raises (time-out or any other failure
    of the transport), the test returns failed, with a detail that holds
    the message of the exception under ["error"] and no ["status"]; the
    request was sent once and is not sent again, and a whole run sends
    one request per entry of [tests]. *)
Theorem transport_failure_outcome (s : Scenario) (w : World) (e : exn) :
  scenario_reply s w = Fails e ->
  exists w',
    scenario_func s w = (Ok (false, PDict [("error", PStr (str_exn e))]), w')
    /\ dict_get "error" [("error", PStr (str_exn e))] = Some (PStr (str_exn e))
    /\ dict_get "status" [("error", PStr (str_exn e))] = None
    /\ posts w' = (posts w ++ [scenario_request s (utcnow_at (clock_reads w))])%list
    /\ (forall w0, List.length (posts (snd (main w0)))
                   = (List.length (posts w0) + List.length tests)%nat).
Proof.
  intros Hreply.
  destruct (scenario_func_run s w) as (w' & Hrun & _ & Hposts & _).
  exists w'. rewrite Hrun, Hreply. cbn [outcome_of error_detail].
  repeat split; try assumption.
  intros w0. destruct (main_run w0) as (w1 & w2 & _ & _ & Hmain & Hp & _).
  rewrite Hmain. cbn [snd]. rewrite Hp, length_app, requests_of_length. reflexivity.
Qed.

(** C9: when the negative test passes, its detail is exactly
    [{"handled_correctly": True}], whatever status and body the rejecting
    response had. *)
Theorem negative_pass_detail (w : World) :
  passed (test_invalid_payload w) = Some true ->
  detail (test_invalid_payload w) = Some (PDict [("handled_correctly", PBool true)]).
Proof.
  change test_invalid_payload with (scenario_func ErrorHandling).
  rewrite passed_outcome, detail_outcome. unfold outcome_of. cbn [is_negative].
  destruct (scenario_reply ErrorHandling w) as [r | e]; [| discriminate].
  destruct (status_code r =? 200); [| reflexivity].
  destruct (json r); discriminate.
Qed.

(** ** Timestamps *)

Lemma timestamp_ends_with_Z (now : datetime) : ends_with_Z (timestamp now).
Proof. exists (isoformat now). reflexivity. Qed.

Lemma append_associative (a b c : string) : (a ++ b) ++ c = a ++ b ++ c.
Proof.
  induction a as [| ch a IH]; cbn [String.append]; [reflexivity | now rewrite IH].
Qed.

Lemma all_from_spec (P : Z -> bool) (count : nat) :
  forall start,
    all_from P start count = true ->
    forall n, start <= n < start + Z.of_nat count -> P n = true.
Proof.
  induction count as [| count IH]; intros start Hall n Hn.
  - lia.
  - cbn [all_from] in Hall. apply andb_true_iff in Hall as [Hstart Hrest].
    destruct (Z.eq_dec n start) as [-> | Hne]; [exact Hstart |].
    apply (IH (start + 1) Hrest). lia.
Qed.

Lemma zfill_2_digits (n : Z) : 0 <= n < 100 -> digits 2 (zfill 2 (str_int n)) = true.
Proof.
  intros Hn.
  apply (all_from_spec (fun k => digits 2 (zfill 2 (str_int k))) (Z.to_nat 100) 0);
    [vm_compute; reflexivity | lia].
Qed.

Lemma zfill_4_digits (n : Z) : 0 <= n < 10000 -> digits 4 (zfill 4 (str_int n)) = true.
Proof.
  intros Hn.
  apply (all_from_spec (fun k => digits 4 (zfill 4 (str_int k))) (Z.to_nat 10000) 0);
    [vm_compute; reflexivity | lia].
Qed.

(** The text of a timestamp: date and time of day in digits of fixed
    widths, then the microseconds unless they are zero, then [Z]. *)
Lemma timestamp_shape (now : datetime) :
  valid_datetime now ->
  exists Y M D h m s fraction,
    timestamp now
    = Y ++ "-" ++ M ++ "-" ++ D ++ "T" ++ h ++ ":" ++ m ++ ":" ++ s ++ fraction ++ "Z"
    /\ digits 4 Y = true /\ digits 2 M = true /\ digits 2 D = true
    /\ digits 2 h = true /\ digits 2 m = true /\ digits 2 s = true
    /\ (if microsecond now =? 0 then fraction = EmptyString
        else fraction = "." ++ zfill 6 (str_int (microsecond now))).
Proof.
  intros (Hy & Hmo & Hd & Hh & Hmi & Hs & Hus).
  exists (zfill 4 (str_int (year now))), (zfill 2 (str_int (month now))),
    (zfill 2 (str_int (day now))), (zfill 2 (str_int (hour now))),
    (zfill 2 (str_int (minute now))), (zfill 2 (str_int (second now))),
    (if microsecond now =? 0 then EmptyString
     else "." ++ zfill 6 (str_int (microsecond now))).
  split.
  - unfold timestamp, isoformat. repeat rewrite append_associative. reflexivity.
  - repeat split;
      try (apply zfill_4_digits; lia); try (apply zfill_2_digits; lia).
    destruct (microsecond now =? 0); reflexivity.
Qed.

Example timestamp_on_the_second :
  timestamp (mkDatetime 2025 1 15 9 30 0 0) = "2025-01-15T09:30:00Z".
Proof. reflexivity. Qed.

Example timestamp_with_microseconds :
  timestamp (mkDatetime 2025 1 15 21 45 3 250000) = "2025-01-15T21:45:03.250000Z".
Proof. reflexivity. Qed.

(** ** The payloads *)

(** C7, as the code has it: each of the first four tests sends its fixed
    fields together with one [timestamp] field (at the top of the payload
    for the simple, deploy-ready and market scan tests, inside [metadata]
    and not at the top for the batch analysis) that holds
    [utcnow().isoformat()] followed by [Z]; the negative test sends
    [symbols] and [priority] alone, with no timestamp anywhere.  The
    payload of each test is given in full. *)
Theorem payload_timestamp (s : Scenario) (w : World) :
  let now := utcnow_at (clock_reads w) in
  let payload := json_payload (scenario_request s now) in
  let stamp := PStr (isoformat now ++ "Z") in
  posts (snd (scenario_func s w)) = (posts w ++ [scenario_request s now])%list
  /\ (forall other : datetime,
        remove_key_deep "timestamp" payload
        = remove_key_deep "timestamp" (json_payload (scenario_request s other)))
  /\ (if is_negative s
      then payload = PDict [("symbols", PList []); ("priority", PStr "normal")]
           /\ find_key_deep "timestamp" payload = None
      else find_key_deep "timestamp" payload = Some (PStr (isoformat now ++ "Z"))
           /\ ends_with_Z (isoformat now ++ "Z"))
  /\ payload
     = match s with
       | SimpleWebhook =>
           PDict [("test", PStr "simple");
                  ("timestamp", stamp)]
       | DeployReadyWebhook =>
           PDict [("action", PStr "test");
                  ("source", PStr "python-test-script");
                  ("timestamp", stamp)]
       | BatchAnalysis =>
           PDict [("symbols", PList [PStr "AAPL"; PStr "MSFT"; PStr "GOOGL"; PStr "TSLA";
                                     PStr "AMZN"; PStr "META"; PStr "NVDA"]);
                  ("priority", PStr "normal");
                  ("metadata", PDict [("source", PStr "python-test-script");
                                      ("test", PBool true);
                                      ("timestamp", stamp)])]
       | MarketScanAction =>
           PDict [("action", PStr "market_scan");
                  ("filters", PDict [("limit", PInt 10);
                                     ("minVolume", PInt 1000000);
                                     ("minPrice", PInt 5);
                                     ("maxPrice", PInt 500)]);
                  ("timestamp", stamp)]
       | ErrorHandling =>
           PDict [("symbols", PList []);
                  ("priority", PStr "normal")]
       end
  /\ count_key_deep "timestamp" payload = (if is_negative s then 0 else 1)%nat
  /\ match s with
     | BatchAnalysis =>
         item "timestamp" payload = None
         /\ exists metadata,
             item "metadata" payload = Some metadata
             /\ item "timestamp" metadata = Some stamp
     | ErrorHandling => item "timestamp" payload = None
     | _ => item "timestamp" payload = Some stamp
     end
  /\ remove_key_deep "timestamp" payload
     = match s with
       | SimpleWebhook => PDict [("test", PStr "simple")]
       | DeployReadyWebhook =>
           PDict [("action", PStr "test"); ("source", PStr "python-test-script")]
       | BatchAnalysis =>
           PDict [("symbols", PList [PStr "AAPL"; PStr "MSFT"; PStr "GOOGL"; PStr "TSLA";
                                     PStr "AMZN"; PStr "META"; PStr "NVDA"]);
                  ("priority", PStr "normal");
                  ("metadata", PDict [("source", PStr "python-test-script");
                                      ("test", PBool true)])]
       | MarketScanAction =>
           PDict [("action", PStr "market_scan");
                  ("filters", PDict [("limit", PInt 10);
                                     ("minVolume", PInt 1000000);
                                     ("minPrice", PInt 5);
                                     ("maxPrice", PInt 500)])]
       | ErrorHandling =>
           PDict [("symbols", PList []); ("priority", PStr "normal")]
       end.
Proof.
  intros now payload stamp.
  destruct (scenario_func_run s w) as (w' & Hrun & _ & Hposts & _).
  rewrite Hrun. cbn [snd]. split; [exact Hposts |].
  split.
  { intros other. subst payload. destruct s; reflexivity. }
  split.
  { subst payload.
    destruct s; cbn [is_negative]; split;
      first [reflexivity | apply timestamp_ends_with_Z]. }
  subst payload stamp.
  destruct s; cbn [is_negative];
    (split; [reflexivity |]); (split; [reflexivity |]); (split; [| reflexivity]);
    try reflexivity.
  split; [reflexivity |]. eexists. split; reflexivity.
Qed.


(** The counts are read off the flags alone. *)
Lemma count_successful_flags (results : list (string * bool)) :
  count_successful results = sum_ones (filter (fun b : bool => b) (map snd results)).
Proof.
  unfold count_successful. rewrite !sum_ones_length. unfold len. f_equal. f_equal.
  induction results as [| [name success] rest IH]; [reflexivity |].
  cbn [filter map snd]. destruct success; cbn [List.length]; now rewrite IH.
Qed.

Lemma count_failed_flags (results : list (string * bool)) :
  count_failed results = sum_ones (filter negb (map snd results)).
Proof.
  unfold count_failed. rewrite !sum_ones_length. unfold len. f_equal. f_equal.
  induction results as [| [name success] rest IH]; [reflexivity |].
  cbn [filter map snd negb]. destruct success; cbn [negb List.length]; now rewrite IH.
Qed.

Lemma len_flags (results : list (string * bool)) :
  len results = len (map snd results).
Proof. unfold len. now rewrite length_map. Qed.

(** ** More on single tests *)

(** The simple, deploy-ready and batch tests pass exactly on a 200 response
    whose body is JSON, and then hand back the parsed body. *)
Theorem plain_test_passes_iff (s : Scenario) (w : World) :
  shows_mock_scan s = false ->
  is_negative s = false ->
  (passed (scenario_func s w) = Some true
   <-> exists r data, scenario_reply s w = Responds r
                      /\ status_code r = 200 /\ json r = inr data)
  /\ (forall r data,
        scenario_reply s w = Responds r -> status_code r = 200 -> json r = inr data ->
        fst (scenario_func s w) = Ok (true, data)).
Proof.
  intros Hscan Hneg. split.
  - rewrite passed_outcome. unfold outcome_of.
    destruct (scenario_reply s w) as [r | e].
    + destruct (Z.eqb_spec (status_code r) 200) as [H200 | H200].
      * destruct (json r) as [e | data] eqn:Hjson.
        -- split; [discriminate |].
           intros (r' & data & Heq & _ & Hdata). injection Heq as <-. congruence.
        -- split; [intros _; eauto |].
           intros _. destruct s; try reflexivity; discriminate.
      * split.
        -- rewrite Hneg. discriminate.
        -- intros (r' & data & Heq & H & _). injection Heq as <-. contradiction.
    + split; [discriminate |]. intros (r & data & Heq & _). discriminate.
  - intros r data Hreply H200 Hjson.
    rewrite scenario_func_outcome, Hreply. unfold outcome_of. rewrite H200, Hjson.
    destruct s; try reflexivity; discriminate.
Qed.


Lemma mock_scan_failure_passes (data : pyval) :
  mock_scan_failure data = None <-> scan_passes data = true.
Proof.
  unfold mock_scan_failure, show_mock_scan, scan_passes, initial_world.
  destruct data as [| b | n | f | s | items | items]; run;
    try (split; discriminate).
  - destruct (substring_of "mockScan" s); run; split; (reflexivity || discriminate).
  - destruct (existsb (is_str "mockScan") items); run;
      split; (reflexivity || discriminate).
  - unfold dict_has.
    destruct (dict_get "mockScan" items) as [scan |]; run; [| split; reflexivity].
    destruct scan as [| b | n | f | s | l | fields]; run; try (split; discriminate).
    unfold scan_displayable, dict_has.
    destruct (dict_get "totalScanned" fields); run; [| split; discriminate].
    destruct (dict_get "filtered" fields); run; [| split; discriminate].
    destruct (dict_get "queued" fields); run; [| split; discriminate].
    destruct (dict_get "candidates" fields) as [c |]; run; [| split; discriminate].
    destruct c; run; split; (reflexivity || discriminate).
Qed.

(** The market scan test on a 200 response with a JSON body.  It fails
    whenever lines 152-157 find something missing: a body that is neither
    an object, an array nor a string; an array or a string in which
    [mockScan] occurs; an object whose [mockScan] is not an object holding
    [totalScanned], [filtered], [queued] and [candidates] with a length.
    On every other body it passes and returns the body, provided the three
    counts it prints are [null], booleans or numbers (the text of a string
    might not go through [print]). *)
Theorem market_scan_verdict (w : World) (r : Response) (data : pyval) :
  scenario_reply MarketScanAction w = Responds r ->
  status_code r = 200 ->
  json r = inr data ->
  (scan_passes data = false -> passed (test_market_scan_action w) = Some false)
  /\ (counts_scalar data = true ->
      passed (test_market_scan_action w) = Some (scan_passes data))
  /\ (counts_scalar data = true -> scan_passes data = true ->
      fst (test_market_scan_action w) = Ok (true, data)).
Proof.
  intros Hreply H200 Hjson.
  assert (passed (test_market_scan_action w) = Some (scan_passes data)
          /\ (scan_passes data = true -> fst (test_market_scan_action w) = Ok (true, data)))
    as [Hpassed Hdetail].
  { change test_market_scan_action with (scenario_func MarketScanAction).
    rewrite passed_outcome, scenario_func_outcome, Hreply. unfold outcome_of.
    rewrite H200, Hjson. cbn [Z.eqb Pos.eqb].
    pose proof (mock_scan_failure_passes data) as Hiff.
    destruct (mock_scan_failure data) as [e |]; cbn [fst].
    - destruct (scan_passes data); [| split; [reflexivity | discriminate]].
      destruct Hiff as [_ Hiff]. discriminate (Hiff eq_refl).
    - destruct Hiff as [Hiff _]. rewrite (Hiff eq_refl). split; reflexivity. }
  split; [| split].
  - intros Hfails. now rewrite Hpassed, Hfails.
  - intros _. exact Hpassed.
  - intros _. exact Hdetail.
Qed.

(** A 200 response whose JSON body is [null], a boolean or a number passes
    the simple, deploy-ready and batch tests and fails the market scan
    test, where [in] raises [TypeError] on it. *)
Theorem scalar_body_splits_the_tests (s : Scenario) (w : World) (r : Response) (data : pyval) :
  is_negative s = false ->
  scenario_reply s w = Responds r ->
  status_code r = 200 ->
  json r = inr data ->
  scalar data = true ->
  passed (scenario_func s w)
  = Some (match s with MarketScanAction => false | _ => true end).
Proof.
  intros Hpos Hreply H200 Hjson Hscalar.
  rewrite passed_outcome, Hreply. unfold outcome_of. rewrite H200, Hjson.
  cbn [Z.eqb Pos.eqb].
  destruct s; try reflexivity; try discriminate.
  destruct data; try discriminate; reflexivity.
Qed.

(** ** More on the suite *)

Lemma run_tests_clock (ss : list Scenario) :
  forall (results : list (string * bool)) (w : World),
    clock_reads (snd (run_tests (map entry ss) results w))
    = (clock_reads w
       + List.length (filter (fun s => negb (is_negative s)) ss))%nat.
Proof.
  induction ss as [| s ss IH]; intros results w.
  - cbn. lia.
  - destruct (scenario_func_run s w) as (w1 & Hrun & _ & _ & _ & Hc).
    cbn [map entry run_tests].
    unfold bind at 1. rewrite Hrun.
    destruct (outcome_of s (scenario_reply s w)) as [success data].
    unfold bind at 1, sleep at 1. rewrite IH. cbn [clock_reads filter].
    rewrite Hc. unfold scenario_clock_reads.
    destruct (is_negative s); cbn [negb List.length]; lia.
Qed.

(** Whatever the endpoints do, [main] sends these five requests, in this
    order and once each: the timestamps come from four successive clock
    reads, and the negative test reads no clock. *)
Theorem main_sends_five_requests (w : World) :
  let c := clock_reads w in
  posts (snd (main w))
  = (posts w
     ++ [mkRequest "https://n8n.anikamaher.com/webhook/thub-test"
                   (simple_payload (utcnow_at c)) 10;
         mkRequest "https://n8n.anikamaher.com/webhook/test-webhook"
                   (deploy_ready_payload (utcnow_at (1 + c))) 15;
         mkRequest "https://n8n.anikamaher.com/webhook/batch-analysis-trigger"
                   (batch_payload (utcnow_at (2 + c))) 20;
         mkRequest "https://n8n.anikamaher.com/webhook/thub-test"
                   (market_scan_payload (utcnow_at (3 + c))) 10;
         mkRequest "https://n8n.anikamaher.com/webhook/batch-analysis-trigger"
                   invalid_payload 10])%list
  /\ clock_reads (snd (main w)) = (4 + c)%nat.
Proof.
  intros c.
  destruct (main_run w) as (w1 & w' & Hloop & _ & Hmain & Hp & _).
  split.
  - rewrite Hmain. cbn [snd]. rewrite Hp. reflexivity.
  - rewrite Hmain. cbn [snd].
    destruct (summarize_run (suite_results w) w1) as (before & after & Hsum).
    assert (w' = snd (summarize (suite_results w) w1)) as ->.
    { unfold main in Hmain. destruct (banner_run w) as (lines & Hbanner).
      unfold bind at 1 in Hmain. rewrite Hbanner in Hmain.
      unfold bind at 1 in Hmain. rewrite Hbanner in Hloop. cbn [snd] in Hloop.
      rewrite Hloop in Hmain. now rewrite Hmain. }
    rewrite Hsum. cbn [snd clock_reads].
    destruct (banner_run w) as (lines & Hbanner).
    rewrite Hbanner in Hloop. cbn [snd] in Hloop.
    pose proof (run_tests_clock scenarios []
                  (mkWorld (stdout w ++ lines) (posts w) (sleeps w) (clock_reads w)))
      as Hclock.
    rewrite <- tests_by_scenario, Hloop in Hclock. cbn [snd clock_reads] in Hclock.
    rewrite Hclock. unfold scenarios. cbn [filter is_negative negb List.length].
    subst c. lia.
Qed.

(** [main] pauses for one second after every test, the last one included,
    whether the test passed or not. *)
Theorem main_pauses_after_every_test (w : World) :
  sleeps (snd (main w)) = (sleeps w ++ [1; 1; 1; 1; 1])%list.
Proof.
  destruct (main_run w) as (w1 & w' & _ & _ & Hmain & _ & Hs & _).
  rewrite Hmain. cbn [snd]. rewrite Hs. reflexivity.
Qed.

(** A failure stops nothing: when every request raises, all five requests
    are still sent, every result is a failure, [main] returns [False], the
    script exits with 1 and the tally is 5 tests, 0 successful, 5 failed. *)
Theorem nothing_aborts_when_all_fail (w : World) :
  (forall n req, exists e, net n req = Fails e) ->
  suite_results w
  = [("Simple Webhook", false); ("Deploy-Ready Webhook", false);
     ("Batch Analysis", false); ("Market Scan Action", false);
     ("Error Handling", false)]
  /\ fst (main w) = Ok false
  /\ fst (exit_status w) = 1
  /\ List.length (posts (snd (main w))) = (List.length (posts w) + 5)%nat
  /\ exists before after,
       stdout (snd (main w))
       = (stdout w ++ before
          ++ ["Total Tests: 5";
              (Colors.GREEN ++ "Successful: 0" ++ Colors.RESET)%string;
              (Colors.RED ++ "Failed: 5" ++ Colors.RESET)%string]
          ++ after)%list.
Proof.
  intros Hdown.
  destruct (main_run w) as (w1 & w' & _ & Hverdicts & Hmain & Hp & _ & Hout).
  assert (suite_results w
          = [("Simple Webhook", false); ("Deploy-Ready Webhook", false);
             ("Batch Analysis", false); ("Market Scan Action", false);
             ("Error Handling", false)]) as Hresults.
  { rewrite Hverdicts. unfold scenarios. cbn [verdicts scenario_name].
    repeat match goal with
           | |- context [net ?n ?req] =>
               let e := fresh "e" in
               let He := fresh "He" in
               destruct (Hdown n req) as (e & He); rewrite He
           end.
    reflexivity. }
  rewrite (exit_status_of_main _ _ _ Hmain), Hmain.
  rewrite Hresults in Hout |- *. cbn [fst snd].
  repeat split; try reflexivity.
  - rewrite Hp, length_app, requests_of_length. reflexivity.
  - exact Hout.
Qed.

Lemma print_detailed_lines (results : list (string * bool)) :
  forall w : World,
    print_detailed results w
    = (Ok tt, mkWorld (stdout w ++ map detailed_line results)
                      (posts w) (sleeps w) (clock_reads w)).
Proof.
  induction results as [| [name success] rest IH]; intros [out sent slept reads].
  - cbn. unfold ret. now rewrite app_nil_r.
  - cbn [print_detailed]. run. rewrite IH. cbn [stdout posts sleeps clock_reads map].
    rewrite <- app_assoc. reflexivity.
Qed.

Lemma summarize_lines (results : list (string * bool)) (w : World) :
  exists before after,
    stdout (snd (summarize results w))
    = (stdout w ++ before
       ++ tally_lines (len results) (count_successful results) (count_failed results)
       ++ [(newline ++ "Detailed Results:")%string]
       ++ map detailed_line results
       ++ after)%list
    /\ List.length after = 6%nat.
Proof.
  destruct w as [out sent slept reads].
  unfold summarize, show_scheduled_workflows, tally_lines. run.
  rewrite print_detailed_lines. run.
  repeat rewrite <- app_assoc. cbn [app].
  refine (ex_intro _ (_ :: _ :: _ :: _ :: _ :: _ :: _ :: _ :: _ :: _ :: _ :: _
                        :: _ :: _ :: _ :: _ :: []) _).
  eexists. cbn [app]. split; reflexivity.
Qed.

(** The report [main] prints once the tests are over: the tally always
    counts 5 tests, with the failed ones making up the difference to 5,
    and it is followed by one line per test, in the order of [tests], with
    the check mark or the cross of its result. *)
Theorem main_prints_the_report (w : World) :
  let results := suite_results w in
  exists before after,
    stdout (snd (main w))
    = (stdout w ++ before
       ++ ["Total Tests: 5";
           (Colors.GREEN ++ "Successful: " ++ str_int (count_successful results)
            ++ Colors.RESET)%string;
           (Colors.RED ++ "Failed: " ++ str_int (5 - count_successful results)
            ++ Colors.RESET)%string]
       ++ [(newline ++ "Detailed Results:")%string]
       ++ map detailed_line results
       ++ after)%list
    /\ List.length after = 6%nat
    /\ map fst results = map fst tests.
Proof.
  intros results.
  destruct (main_run w) as (w1 & w' & Hloop & Hverdicts & Hmain & _).
  destruct (banner_run w) as (lines & Hbanner).
  destruct (run_tests_run scenarios []
              (mkWorld (stdout w ++ lines) (posts w) (sleeps w) (clock_reads w)))
    as (w2 & Hloop2 & (lines1 & Hout1) & _).
  rewrite Hbanner in Hloop. cbn [snd] in Hloop.
  rewrite <- tests_by_scenario, Hloop in Hloop2.
  injection Hloop2 as _ <-. cbn [stdout] in Hout1.
  assert (w' = snd (summarize (suite_results w) w1)) as Hw'.
  { unfold main in Hmain. unfold bind at 1 in Hmain. rewrite Hbanner in Hmain.
    unfold bind at 1 in Hmain. rewrite Hloop in Hmain. now rewrite Hmain. }
  destruct (summarize_lines (suite_results w) w1) as (before & after & Hsum & Hafter).
  assert (len (suite_results w) = 5) as Hlen.
  { unfold len. rewrite Hverdicts, verdicts_length. reflexivity. }
  assert (count_failed (suite_results w) = 5 - count_successful (suite_results w)) as Hfailed.
  { pose proof (counts_partition (suite_results w)). lia. }
  exists (lines ++ lines1 ++ before)%list, after.
  split; [| split; [exact Hafter |]].
  - rewrite Hmain. cbn [snd]. rewrite Hw', Hsum, Hout1.
    unfold tally_lines. fold results. subst results. rewrite Hlen, Hfailed.
    repeat rewrite <- app_assoc. reflexivity.
  - subst results. rewrite Hverdicts, verdicts_names. reflexivity.
Qed.

Lemma static_part_of_scenario (s : Scenario) (now now' : datetime) :
  static_part (scenario_request s now) = static_part (scenario_request s now').
Proof. destruct s; reflexivity. Qed.

Lemma verdicts_of_static_endpoint (ss : list Scenario) :
  (forall n m req req', static_part req = static_part req' -> net n req = net m req') ->
  forall p c p' c', verdicts ss p c = verdicts ss p' c'.
Proof.
  intros Hstatic. induction ss as [| s ss IH]; intros p c p' c'; cbn [verdicts].
  - reflexivity.
  - rewrite (Hstatic p p' _ _ (static_part_of_scenario s (utcnow_at c) (utcnow_at c'))).
    f_equal. apply IH.
Qed.

(** When what an endpoint answers depends on the request without its
    timestamp only (not on the time, nor on what was asked before), every
    run of the suite yields the same flags; so does a second run that
    follows a first one. *)
Theorem rerun_gives_same_flags (w w' : World) :
  (forall n m req req', static_part req = static_part req' -> net n req = net m req') ->
  suite_results w = suite_results w'
  /\ suite_results (snd (main w)) = suite_results w.
Proof.
  intros Hstatic.
  assert (forall w1 w2, suite_results w1 = suite_results w2) as Hsame.
  { intros w1 w2.
    destruct (main_run w1) as (_ & _ & _ & -> & _).
    destruct (main_run w2) as (_ & _ & _ & -> & _).
    now apply verdicts_of_static_endpoint. }
  split; apply Hsame.
Qed.

(** On a 200 response whose body is not JSON each positive test prints the
    line of success first and the line of the error right after it, and
    is reported failed. *)
Theorem success_line_then_error_line (s : Scenario) (w : World) (r : Response) (e : exn) :
  is_negative s = false ->
  scenario_reply s w = Responds r ->
  status_code r = 200 ->
  json r = inl e ->
  exists w' lines,
    scenario_func s w = (Ok (false, PDict [("error", PStr (str_exn e))]), w')
    /\ stdout w'
       = (stdout w ++ lines
          ++ [(Colors.GREEN ++ "✓ Success (200)" ++ Colors.RESET)%string;
              (Colors.RED ++ "✗ Error: " ++ str_exn e ++ Colors.RESET)%string])%list.
Proof.
  intros Hpos Hreply H200 Hjson.
  destruct w as [out sent slept reads].
  unfold scenario_reply in Hreply. cbn [posts clock_reads] in Hreply.
  destruct s; try discriminate; cbn [scenario_request] in Hreply;
    cbn [scenario_func];
    unfold test_simple_webhook, test_deploy_ready_webhook, test_batch_analysis,
      test_market_scan_action; run;
    rewrite Hreply, H200, Hjson; cbn [Z.eqb Pos.eqb];
    eexists; eexists (_ :: _); (split; [reflexivity |]);
    repeat rewrite <- app_assoc; cbn [app];
    first [ instantiate (1 := [_; _]); reflexivity
          | instantiate (1 := [_; _; _]); reflexivity ].
Qed.

(** ** What the loop keeps of a test *)

(** The loop of [main] appends, for each test, its name and the flag it
    returned, and nothing of its detail. *)
Lemma run_tests_records_returned (ts : list (string * M (bool * pyval))) :
  forall (results : list (string * bool)) (w : World),
    List.length (returned_by ts w) = List.length ts ->
    fst (run_tests ts results w)
    = Ok (results ++ combine (map fst ts) (map fst (returned_by ts w)))%list.
Proof.
  induction ts as [| [test_name test_func] rest IH]; intros results w Hall.
  - cbn. now rewrite app_nil_r.
  - cbn [run_tests returned_by map fst combine] in *. unfold bind at 1.
    destruct (test_func w) as [[[success data] | e] w1]; [| discriminate Hall].
    cbn [List.length] in Hall. injection Hall as Hall.
    unfold bind at 1. unfold sleep in *. cbn [fst snd map combine] in *.
    rewrite (IH _ _ Hall), <- app_assoc. reflexivity.
Qed.

Lemma returned_by_scenarios (ss : list Scenario) :
  forall w, List.length (returned_by (map entry ss) w) = List.length ss.
Proof.
  induction ss as [| s ss IH]; intros w; [reflexivity |].
  cbn [map entry returned_by].
  destruct (scenario_func_run s w) as (w1 & -> & _).
  cbn [List.length]. now rewrite IH.
Qed.

Lemma all_successful_flags (results : list (string * bool)) :
  (count_successful results =? len results) = forallb (fun b : bool => b) (map snd results).
Proof.
  destruct (forallb (fun b : bool => b) (map snd results)) eqn:Hall.
  - apply all_successful_iff, count_failed_zero. intros name success Hin.
    rewrite forallb_forall in Hall. apply Hall.
    change success with (snd (name, success)). now apply in_map.
  - apply not_true_is_false. intros Htrue.
    apply all_successful_iff in Htrue.
    assert (forallb (fun b : bool => b) (map snd results) = true) as Habs.
    { apply forallb_forall. intros b Hin. apply in_map_iff in Hin as ([name b'] & <- & Hin).
      exact (proj1 (count_failed_zero results) Htrue name b' Hin). }
    congruence.
Qed.

Lemma flags_of_combine (names : list string) (flags : list bool) :
  List.length names = List.length flags ->
  map snd (combine names flags) = flags.
Proof.
  revert flags. induction names as [| name names IH]; intros [| flag flags] Hlen;
    try discriminate; [reflexivity |].
  cbn [combine map snd]. f_equal. apply IH. now injection Hlen.
Qed.

(** The results [main] counts are the names of [tests] paired with the
    flags the tests returned, and [main] returns whether all of those flags
    are [True]. *)
Lemma suite_results_returned (w : World) :
  List.length (returned_by tests (snd (banner w))) = List.length tests
  /\ suite_results w
     = combine (map fst tests) (map fst (returned_by tests (snd (banner w))))
  /\ fst (main w)
     = Ok (forallb (fun b : bool => b) (map fst (returned_by tests (snd (banner w))))).
Proof.
  assert (List.length (returned_by tests (snd (banner w))) = List.length tests) as Hall.
  { rewrite tests_by_scenario, returned_by_scenarios, length_map. reflexivity. }
  pose proof (run_tests_records_returned tests [] (snd (banner w)) Hall) as Hloop.
  cbn [app] in Hloop.
  destruct (main_run w) as (w1 & w' & Hrun & _ & Hmain & _).
  rewrite Hrun in Hloop. cbn [fst] in Hloop.
  assert (suite_results w
          = combine (map fst tests) (map fst (returned_by tests (snd (banner w)))))
    as Hresults by congruence.
  split; [exact Hall |]. split; [exact Hresults |].
  rewrite Hmain. cbn [fst]. rewrite all_successful_flags, Hresults, flags_of_combine.
  - reflexivity.
  - now rewrite !length_map, Hall.
Qed.

End Harness.

(** ** Two runs side by side *)

(** C10: take two runs of the suite in which the test functions return
    the same flags, in the same order, whatever details they return beside
    them.  In each run the results [main] counts are the names of [tests]
    paired with the flags returned, so the two runs have the same counts,
    [main] returns the same value in both, namely whether all the flags
    returned are [True], and the exit status is the same. *)
Theorem verdict_ignores_details
        (net1 net2 : nat -> Request -> Reply) (clock1 clock2 : nat -> datetime)
        (dumps1 dumps2 format1 format2 : pyval -> string) (w1 w2 : World) :
  let returned1 := returned_by (tests net1 clock1 dumps1 format1) (snd (banner w1)) in
  let returned2 := returned_by (tests net2 clock2 dumps2 format2) (snd (banner w2)) in
  map fst returned1 = map fst returned2 ->
  suite_results net1 clock1 dumps1 format1 w1
  = combine (map fst (tests net1 clock1 dumps1 format1)) (map fst returned1)
  /\ suite_results net2 clock2 dumps2 format2 w2
     = combine (map fst (tests net2 clock2 dumps2 format2)) (map fst returned2)
  /\ fst (main net1 clock1 dumps1 format1 w1)
     = Ok (forallb (fun b : bool => b) (map fst returned1))
  /\ count_successful (suite_results net1 clock1 dumps1 format1 w1)
     = count_successful (suite_results net2 clock2 dumps2 format2 w2)
  /\ count_failed (suite_results net1 clock1 dumps1 format1 w1)
     = count_failed (suite_results net2 clock2 dumps2 format2 w2)
  /\ len (suite_results net1 clock1 dumps1 format1 w1)
     = len (suite_results net2 clock2 dumps2 format2 w2)
  /\ fst (main net1 clock1 dumps1 format1 w1) = fst (main net2 clock2 dumps2 format2 w2)
  /\ fst (exit_status net1 clock1 dumps1 format1 w1)
     = fst (exit_status net2 clock2 dumps2 format2 w2).
Proof.
  intros returned1 returned2 Hflags.
  destruct (suite_results_returned net1 clock1 dumps1 format1 w1)
    as (Hall1 & Hresults1 & Hverdict1).
  destruct (suite_results_returned net2 clock2 dumps2 format2 w2)
    as (Hall2 & Hresults2 & Hverdict2).
  fold returned1 in Hall1, Hresults1, Hverdict1.
  fold returned2 in Hall2, Hresults2, Hverdict2.
  assert (map snd (suite_results net1 clock1 dumps1 format1 w1)
          = map snd (suite_results net2 clock2 dumps2 format2 w2)) as Hrecorded.
  { rewrite Hresults1, Hresults2, !flags_of_combine;
      [exact Hflags | now rewrite !length_map, Hall2 | now rewrite !length_map, Hall1]. }
  destruct (main_run net1 clock1 dumps1 format1 w1) as (a1 & b1 & _ & _ & Hmain1 & _).
  destruct (main_run net2 clock2 dumps2 format2 w2) as (a2 & b2 & _ & _ & Hmain2 & _).
  split; [exact Hresults1 |]. split; [exact Hresults2 |]. split; [exact Hverdict1 |].
  rewrite (exit_status_of_main _ _ _ _ _ _ _ Hmain1),
          (exit_status_of_main _ _ _ _ _ _ _ Hmain2), Hmain1, Hmain2.
  cbn [fst].
  rewrite !count_successful_flags, !count_failed_flags, !len_flags, Hrecorded.
  repeat split; reflexivity.
Qed.

(** ** The theorems at work on the sample worlds *)


Lemma market_scan_missing_subfield_witness :
  fst (test_market_scan_action net_partial_scan clock_morning dumps_flat dumps_flat
                               initial_world)
  = Ok (false, PDict [("error", PStr "'totalScanned'")]).
Proof.
  apply (market_scan_missing_subfield net_partial_scan clock_morning dumps_flat dumps_flat
           initial_world (ok_json (PDict [("mockScan", PDict [])]))
           [("mockScan", PDict [])] []); reflexivity.
Defined.

Lemma transport_failure_outcome_witness :
  exists w',
    scenario_func net_down clock_morning dumps_flat dumps_flat BatchAnalysis initial_world
    = (Ok (false,
           PDict [("error",
                   PStr "HTTPSConnectionPool(host='n8n.anikamaher.com', port=443): Read timed out.")]),
       w')
    /\ List.length (posts w') = 1%nat.
Proof.
  destruct (transport_failure_outcome net_down clock_morning dumps_flat dumps_flat
              BatchAnalysis initial_world _ eq_refl)
    as (w' & Hrun & _ & _ & Hposts & _).
  exists w'. split; [exact Hrun |]. rewrite Hposts. reflexivity.
Defined.


Lemma negative_pass_detail_witness :
  passed (test_invalid_payload (net_text 400) initial_world) = Some true
  /\ detail (test_invalid_payload (net_text 400) initial_world)
     = Some (PDict [("handled_correctly", PBool true)]).
Proof.
  split; [reflexivity |].
  apply (negative_pass_detail (net_text 400) clock_morning dumps_flat dumps_flat
           initial_world). reflexivity.
Defined.

Lemma verdict_ignores_details_witness :
  map snd (returned_by (tests net_healthy clock_morning dumps_flat dumps_flat)
                       (snd (banner initial_world)))
  <> map snd (returned_by (tests net_healthy_verbose clock_evening dumps_flat dumps_flat)
                          (snd (banner initial_world)))
  /\ fst (exit_status net_healthy clock_morning dumps_flat dumps_flat initial_world)
     = fst (exit_status net_healthy_verbose clock_evening dumps_flat dumps_flat initial_world).
Proof.
  split; [vm_compute; discriminate |].
  apply (verdict_ignores_details net_healthy net_healthy_verbose clock_morning clock_evening
           dumps_flat dumps_flat dumps_flat dumps_flat initial_world initial_world).
  vm_compute. reflexivity.
Defined.

(** ** Where the code and the expected behaviour part *)



(** C7: the one request the negative test sends carries no timestamp. *)
Lemma invalid_payload_has_no_timestamp :
  posts (snd (test_invalid_payload net_healthy initial_world))
  = [mkRequest "https://n8n.anikamaher.com/webhook/batch-analysis-trigger"
               (PDict [("symbols", PList []); ("priority", PStr "normal")]) 10]
  /\ find_key_deep "timestamp" (PDict [("symbols", PList []); ("priority", PStr "normal")])
     = None.
Proof. split; reflexivity. Qed.

(** ** The further theorems at work on the sample worlds *)

Lemma plain_test_passes_iff_witness :
  fst (scenario_func net_healthy clock_morning dumps_flat dumps_flat
                     BatchAnalysis initial_world)
  = Ok (true, PDict []).
Proof.
  apply (proj2 (plain_test_passes_iff net_healthy clock_morning dumps_flat dumps_flat
                  BatchAnalysis initial_world eq_refl eq_refl) ok_empty (PDict []));
    reflexivity.
Defined.


Lemma market_scan_verdict_witness :
  counts_scalar full_scan = true
  /\ scan_passes full_scan = true
  /\ fst (test_market_scan_action net_full_scan clock_morning dumps_flat dumps_flat
                                  initial_world)
     = Ok (true, full_scan).
Proof.
  split; [reflexivity |]. split; [reflexivity |].
  apply (proj2 (proj2 (market_scan_verdict net_full_scan clock_morning dumps_flat dumps_flat
                         initial_world (ok_json full_scan) full_scan
                         eq_refl eq_refl eq_refl)));
    reflexivity.
Defined.

Lemma scalar_body_splits_the_tests_witness :
  passed (scenario_func net_null clock_morning dumps_flat dumps_flat
                        MarketScanAction initial_world) = Some false
  /\ passed (scenario_func net_null clock_morning dumps_flat dumps_flat
                           SimpleWebhook initial_world) = Some true.
Proof.
  split.
  - apply (scalar_body_splits_the_tests net_null clock_morning dumps_flat dumps_flat
             MarketScanAction initial_world (ok_json PNone) PNone); reflexivity.
  - reflexivity.
Defined.

Lemma nothing_aborts_when_all_fail_witness :
  fst (exit_status net_down clock_morning dumps_flat dumps_flat initial_world) = 1.
Proof.
  apply (nothing_aborts_when_all_fail net_down clock_morning dumps_flat dumps_flat
           initial_world).
  intros n req. eexists. reflexivity.
Defined.

Lemma rerun_gives_same_flags_witness :
  suite_results net_server_error clock_evening dumps_flat dumps_flat
    (snd (main net_server_error clock_evening dumps_flat dumps_flat initial_world))
  = suite_results net_server_error clock_evening dumps_flat dumps_flat initial_world.
Proof.
  apply (rerun_gives_same_flags net_server_error clock_evening dumps_flat dumps_flat
           initial_world initial_world).
  intros n m req req' _. reflexivity.
Defined.

Lemma success_line_then_error_line_witness :
  exists w' lines,
    scenario_func (net_text 200) clock_morning dumps_flat dumps_flat
                  DeployReadyWebhook initial_world
    = (Ok (false, PDict [("error", PStr "Expecting value: line 1 column 1 (char 0)")]), w')
    /\ stdout w'
       = (lines
          ++ [(Colors.GREEN ++ "✓ Success (200)" ++ Colors.RESET)%string;
              (Colors.RED ++ "✗ Error: Expecting value: line 1 column 1 (char 0)"
               ++ Colors.RESET)%string])%list.
Proof.
  exact (success_line_then_error_line (net_text 200) clock_morning dumps_flat dumps_flat
           DeployReadyWebhook initial_world (plain_text 200) not_json
           eq_refl eq_refl eq_refl eq_refl).
Defined.

Lemma timestamp_shape_witness :
  exists Y M D h m s fraction,
    "2025-01-15T09:30:00Z"
    = Y ++ "-" ++ M ++ "-" ++ D ++ "T" ++ h ++ ":" ++ m ++ ":" ++ s ++ fraction ++ "Z"
    /\ digits 4 Y = true /\ digits 2 M = true /\ digits 2 D = true
    /\ digits 2 h = true /\ digits 2 m = true /\ digits 2 s = true
    /\ fraction = EmptyString.
Proof.
  apply (timestamp_shape (mkDatetime 2025 1 15 9 30 0 0)).
  unfold valid_datetime. cbn. lia.
Defined.

(** * Properties of the memory update script *)

Section UpdateMemoryProperties.

Variable run : nat -> list string -> UpdateMemory.Outcome.
Variable now_at : nat -> datetime.
Variable dumps : pyval -> string.

Ltac shell_run :=
  cbv beta iota zeta delta
    [UpdateMemory.bind UpdateMemory.ret UpdateMemory.try_except UpdateMemory.print
     UpdateMemory.subprocess_run UpdateMemory.now UpdateMemory.update
     UpdateMemory.printed UpdateMemory.commands UpdateMemory.now_reads fst snd].

Lemma create_entity_run (u : UpdateMemory.Update) (sh : UpdateMemory.Shell) :
  exists line,
    UpdateMemory.create_entity run dumps u sh
    = (Ok tt,
       UpdateMemory.mkShell
         (UpdateMemory.printed sh ++ [line])
         (UpdateMemory.commands sh ++ [UpdateMemory.entity_cmd dumps u])
         (UpdateMemory.now_reads sh)).
Proof.
  destruct sh as [out cmds reads]. unfold UpdateMemory.create_entity. shell_run.
  destruct (run (List.length cmds) (UpdateMemory.entity_cmd dumps u)) as [result | e];
    shell_run; [destruct (UpdateMemory.returncode result =? 0) |]; shell_run;
    eexists; reflexivity.
Qed.

Lemma create_relation_run (rel : UpdateMemory.Relation) (sh : UpdateMemory.Shell) :
  exists line,
    UpdateMemory.create_relation run dumps rel sh
    = (Ok tt,
       UpdateMemory.mkShell
         (UpdateMemory.printed sh ++ [line])
         (UpdateMemory.commands sh ++ [UpdateMemory.relation_cmd dumps rel])
         (UpdateMemory.now_reads sh)).
Proof.
  destruct sh as [out cmds reads]. unfold UpdateMemory.create_relation. shell_run.
  destruct (run (List.length cmds) (UpdateMemory.relation_cmd dumps rel)) as [result | e];
    shell_run; [destruct (UpdateMemory.returncode result =? 0) |]; shell_run;
    eexists; reflexivity.
Qed.

(** A loop whose body runs one command and prints one line, and raises
    nothing, runs a command and prints a line for every item. *)
Lemma for_each_run {A} (body : A -> UpdateMemory.Sh unit) (cmd : A -> list string) :
  (forall x sh, exists line,
      body x sh
      = (Ok tt, UpdateMemory.mkShell (UpdateMemory.printed sh ++ [line])
                                     (UpdateMemory.commands sh ++ [cmd x])
                                     (UpdateMemory.now_reads sh))) ->
  forall l sh, exists lines,
      UpdateMemory.for_each body l sh
      = (Ok tt, UpdateMemory.mkShell (UpdateMemory.printed sh ++ lines)
                                     (UpdateMemory.commands sh ++ map cmd l)
                                     (UpdateMemory.now_reads sh))
      /\ List.length lines = List.length l.
Proof.
  intros Hbody l. induction l as [| x rest IH]; intros [out cmds reads].
  - exists []. cbn. unfold UpdateMemory.ret. rewrite !app_nil_r. auto.
  - cbn [UpdateMemory.for_each map]. unfold UpdateMemory.bind at 1.
    destruct (Hbody x (UpdateMemory.mkShell out cmds reads)) as (line & ->).
    cbn [UpdateMemory.printed UpdateMemory.commands UpdateMemory.now_reads].
    destruct (IH (UpdateMemory.mkShell (out ++ [line]) (cmds ++ [cmd x]) reads))
      as (lines & -> & Hlen).
    cbn [UpdateMemory.printed UpdateMemory.commands UpdateMemory.now_reads].
    exists (line :: lines). rewrite <- !app_assoc. cbn [app List.length].
    split; [reflexivity | now rewrite Hlen].
Qed.

Lemma update_memory_run (sh : UpdateMemory.Shell) :
  exists lines updates,
    UpdateMemory.update_memory run now_at dumps sh
    = (Ok tt,
       UpdateMemory.mkShell
         (UpdateMemory.printed sh ++ lines)
         (UpdateMemory.commands sh
          ++ map (UpdateMemory.entity_cmd dumps) updates
          ++ map (UpdateMemory.relation_cmd dumps) UpdateMemory.relationships)
         (8 + UpdateMemory.now_reads sh))
    /\ List.length lines = 12%nat
    /\ map UpdateMemory.entity updates = UpdateMemory.entity_names.
Proof.
  destruct sh as [out cmds reads]. unfold UpdateMemory.update_memory. shell_run.
  match goal with
  | |- context [UpdateMemory.for_each ?body ?l ?sh1] =>
      destruct (for_each_run body (UpdateMemory.entity_cmd dumps) create_entity_run l sh1)
        as (lines1 & -> & Hlen1);
      set (updates := l) in *
  end.
  shell_run.
  match goal with
  | |- context [UpdateMemory.for_each ?body ?l ?sh1] =>
      destruct (for_each_run body (UpdateMemory.relation_cmd dumps) create_relation_run l sh1)
        as (lines2 & -> & Hlen2)
  end.
  shell_run.
  exists (lines1 ++ lines2)%list, updates.
  rewrite <- !app_assoc, length_app, Hlen1, Hlen2.
  repeat split; reflexivity.
Qed.

(** Whatever the tool does with each command (a return code other than 0,
    an exception), [update_memory] raises nothing and runs all twelve
    commands, the eight entities first, in the order of [updates], then the
    four relations.  The eight dates it reads from the clock are in none of
    the JSON arguments. *)
Theorem update_memory_runs_every_command (sh : UpdateMemory.Shell) :
  exists sh' payloads,
    UpdateMemory.update_memory run now_at dumps sh = (Ok tt, sh')
    /\ List.length payloads = 12%nat
    /\ UpdateMemory.commands sh'
       = (UpdateMemory.commands sh
          ++ map (fun p => ["mcp"; "call-tool"; "memory-thub-v2";
                            "memory_create_entities"; dumps p])
                 (firstn 8 payloads)
          ++ map (fun p => ["mcp"; "call-tool"; "memory-thub-v2";
                            "memory_create_relations"; dumps p])
                 (skipn 8 payloads))%list
    /\ map (find_key_deep "name") (firstn 8 payloads)
       = map (fun name => Some (PStr name)) UpdateMemory.entity_names
    /\ map (find_key_deep "from") (skipn 8 payloads)
       = map (fun rel => Some (PStr (UpdateMemory.from rel))) UpdateMemory.relationships
    /\ Forall (fun p => find_key_deep "date" p = None) payloads
    /\ UpdateMemory.now_reads sh' = (8 + UpdateMemory.now_reads sh)%nat.
Proof.
  destruct sh as [out cmds reads]. unfold UpdateMemory.update_memory. shell_run.
  match goal with
  | |- context [UpdateMemory.for_each ?body ?l ?sh1] =>
      destruct (for_each_run body (UpdateMemory.entity_cmd dumps) create_entity_run l sh1)
        as (lines1 & -> & Hlen1);
      set (updates := l) in *
  end.
  shell_run.
  match goal with
  | |- context [UpdateMemory.for_each ?body ?l ?sh1] =>
      destruct (for_each_run body (UpdateMemory.relation_cmd dumps) create_relation_run l sh1)
        as (lines2 & -> & Hlen2)
  end.
  shell_run.
  eexists.
  exists (map UpdateMemory.entity_json updates
          ++ map UpdateMemory.relation_json UpdateMemory.relationships)%list.
  split; [reflexivity |].
  split; [reflexivity |].
  split; [rewrite <- app_assoc; reflexivity |].
  split; [reflexivity |].
  split; [reflexivity |].
  split; [| reflexivity].
  repeat constructor.
Qed.

(** The script prints its line of completion and exits with 0 whatever
    happened to the twelve commands; between its two rules it prints one
    line per command. *)
Theorem script_always_reports_completion (sh : UpdateMemory.Shell) :
  exists sh' lines,
    UpdateMemory.script run now_at dumps sh = (0, sh')
    /\ List.length lines = 12%nat
    /\ UpdateMemory.printed sh'
       = (UpdateMemory.printed sh
          ++ ["🔄 Updating THub V2 project memory..."; str_repeat "=" 50]
          ++ lines
          ++ [str_repeat "=" 50; "✅ Memory update complete!"])%list
    /\ List.length (UpdateMemory.commands sh')
       = (List.length (UpdateMemory.commands sh) + 12)%nat.
Proof.
  destruct sh as [out cmds reads]. unfold UpdateMemory.script. shell_run.
  match goal with
  | |- context [UpdateMemory.update_memory run now_at dumps ?sh1] =>
      destruct (update_memory_run sh1) as (lines & updates & -> & Hlen & Hnames)
  end.
  shell_run.
  eexists. exists lines.
  split; [reflexivity |]. split; [exact Hlen |].
  cbn [UpdateMemory.printed UpdateMemory.commands].
  split.
  - rewrite <- !app_assoc. reflexivity.
  - rewrite !length_app, !length_map.
    rewrite <- (length_map UpdateMemory.entity updates), Hnames. reflexivity.
Qed.

(** The line of one entity is the line of success exactly when the command
    ran and returned 0; with any other return code, and with an exception,
    another line is printed and the loop goes on. *)
Theorem entity_line_tells_the_return_code
        (u : UpdateMemory.Update) (sh : UpdateMemory.Shell) :
  UpdateMemory.printed (snd (UpdateMemory.create_entity run dumps u sh))
  = (UpdateMemory.printed sh ++ [("✅ Updated: " ++ UpdateMemory.entity u)%string])%list
  <-> exists result,
      run (List.length (UpdateMemory.commands sh)) (UpdateMemory.entity_cmd dumps u)
      = UpdateMemory.Returns result
      /\ UpdateMemory.returncode result = 0.
Proof.
  destruct sh as [out cmds reads]. unfold UpdateMemory.create_entity. shell_run.
  destruct (run (List.length cmds) (UpdateMemory.entity_cmd dumps u)) as [result | e];
    shell_run.
  - destruct (Z.eqb_spec (UpdateMemory.returncode result) 0) as [H0 | H0]; shell_run.
    + split; [intros _; eauto | reflexivity].
    + split.
      * intros Heq. apply app_inv_head in Heq. injection Heq as Heq. discriminate Heq.
      * intros (result' & Heq & Hzero). injection Heq as <-. contradiction.
  - split.
    + intros Heq. apply app_inv_head in Heq. injection Heq as Heq. discriminate Heq.
    + intros (result & Heq & _). discriminate.
Qed.

End UpdateMemoryProperties.

Example missing_tool_still_completes :
  let r := UpdateMemory.script UpdateMemory.tool_missing clock_morning dumps_flat
                               UpdateMemory.fresh_shell in
  fst r = 0
  /\ List.length (UpdateMemory.commands (snd r)) = 12%nat
  /\ last (UpdateMemory.printed (snd r)) EmptyString = "✅ Memory update complete!".
Proof. repeat split; reflexivity. Qed.

Example flaky_tool_lines :
  firstn 2 (skipn 2 (UpdateMemory.printed
                       (snd (UpdateMemory.script UpdateMemory.tool_flaky clock_morning
                                                 dumps_flat UpdateMemory.fresh_shell))))
  = ["✅ Updated: landing_page_fixes";
     "❌ Failed to update csp_middleware: connection refused"].
Proof. reflexivity. Qed.
